(** * Pomodoro timer: the interval state machine of [pomodoro_timer.py]

    A shallow embedding of class [PomodoroTimer]: its fields, the widget
    properties its methods read and write, the methods themselves and the
    countdown loop of [run_timer], followed by the properties of the
    interval state machine.

    Python integers are unbounded and are modelled by [Z]; [divmod] and [%]
    with a positive divisor are [Z.div] and [Z.modulo] (both floor).  Text is
    modelled by [string], one character per code point below 256.

    The program has two kinds of activity: the callbacks of the interface,
    which the event loop runs one at a time, and the countdown threads
    started by [start_timer].  Two views of their runs are given.  In a
    serialised run methods and ticks follow one another, a tick being one
    uninterrupted pass of the countdown loop; this is the state machine of
    the specification.  In an interleaved run every thread advances one
    statement at a time between the callbacks, so that a callback can fall
    inside the [time.sleep] of a tick. *)

From Stdlib Require Import ZArith List String Ascii Bool Lia.
Import ListNotations.

Local Open Scope string_scope.
Local Open Scope Z_scope.

(** ** Python text primitives used by the timer *)

Module PyStr.

(** [str.split(sep)] for a one-character separator: the result is never
    empty, and [n] separators give [n + 1] pieces. *)
Fixpoint split (sep : ascii) (s : string) : list string :=
  match s with
  | EmptyString => [EmptyString]
  | String c r =>
      if Ascii.eqb c sep then EmptyString :: split sep r
      else match split sep r with
           | [] => [String c EmptyString]
           | h :: t => String c h :: t
           end
  end.

(** Characters that [int()] skips around a literal: the C white space
    characters, and NEL and NBSP from the Latin-1 supplement. *)
Definition is_space (c : ascii) : bool :=
  let n := N_of_ascii c in
  ((9 <=? n) && (n <=? 13) || (n =? 32) || (n =? 133) || (n =? 160))%N.

Definition digit_val (c : ascii) : option Z :=
  let n := N_of_ascii c in
  if ((48 <=? n) && (n <=? 57))%N then Some (Z.of_N n - 48) else None.

Fixpoint lstrip (s : string) : string :=
  match s with
  | String c r => if is_space c then lstrip r else s
  | EmptyString => s
  end.

Fixpoint all_space (s : string) : bool :=
  match s with
  | String c r => is_space c && all_space r
  | EmptyString => true
  end.

(** The digits of a literal after its first digit: further digits, each
    optionally preceded by one underscore.  Returns the value read and the
    text left over, or [None] for a misplaced underscore. *)
Fixpoint scan_digits (acc : Z) (s : string) : option (Z * string) :=
  match s with
  | EmptyString => Some (acc, EmptyString)
  | String c r =>
      match digit_val c with
      | Some d => scan_digits (acc * 10 + d) r
      | None =>
          if Ascii.eqb c "_" then
            match r with
            | String c' r' =>
                match digit_val c' with
                | Some d => scan_digits (acc * 10 + d) r'
                | None => None
                end
            | EmptyString => None
            end
          else Some (acc, s)
      end
  end.

(** An unsigned literal followed by optional white space up to the end. *)
Definition unsigned_literal (s : string) : option Z :=
  match s with
  | String c r =>
      match digit_val c with
      | Some d =>
          match scan_digits d r with
          | Some (v, rest) => if all_space rest then Some v else None
          | None => None
          end
      | None => None
      end
  | EmptyString => None
  end.

(** [int(s)] in base ten; [None] stands for [ValueError].  The optional
    limit of the interpreter on the number of digits is not modelled. *)
Definition int (s : string) : option Z :=
  match lstrip s with
  | String c r =>
      if Ascii.eqb c "-" then option_map Z.opp (unsigned_literal r)
      else if Ascii.eqb c "+" then unsigned_literal r
      else unsigned_literal (String c r)
  | EmptyString => None
  end.

Definition digit_char (d : Z) : ascii := ascii_of_N (48 + Z.to_N d).

(** Decimal digits of a non-negative integer, most significant first. *)
Fixpoint dec_digits_aux (fuel : nat) (n : Z) (acc : string) : string :=
  match fuel with
  | O => acc
  | S f =>
      let acc' := String (digit_char (n mod 10)) acc in
      if n / 10 =? 0 then acc' else dec_digits_aux f (n / 10) acc'
  end.

Definition dec_digits (n : Z) : string :=
  dec_digits_aux (S (Z.to_nat (Z.log2 n))) n EmptyString.

(** The format specification [02d]: sign-aware zero padding to width 2. *)
Definition format_02d (n : Z) : string :=
  if n <? 0 then String "-" (dec_digits (- n))
  else
    let d := dec_digits n in
    if (String.length d <? 2)%nat then String "0" d else d.

End PyStr.

(** ** State of a [PomodoroTimer] instance *)

(** The three values [current_mode] takes; [mode_text] is the Python string
    stored in the field and shown in the mode label. *)
Inductive Mode := Pomodoro | ShortBreak | LongBreak.

Definition mode_text (m : Mode) : string :=
  match m with
  | Pomodoro => "Pomodoro"
  | ShortBreak => "Short Break"
  | LongBreak => "Long Break"
  end.

Definition is_pomodoro (m : Mode) : bool :=
  match m with Pomodoro => true | _ => false end.

(** The [state] option of a button. *)
Inductive WState := Normal | Disabled.

Definition is_normal (w : WState) : bool :=
  match w with Normal => true | Disabled => false end.

(** The widget properties that the methods configure or read. *)
Record Widgets := mkWidgets {
  time_label : string;
  mode_label : string;
  start_button : WState;
  pause_button : WState;
  pause_button_text : string;
  custom_button : WState;
  custom_entry : string
}.

Record Timer := mkTimer {
  pomodoro_time : Z;
  short_break_time : Z;
  long_break_time : Z;
  time_left : Z;
  timer_running : bool;
  timer_paused : bool;
  pomodoro_count : Z;
  current_mode : Mode;
  ui : Widgets
}.

(** Why a [ValueError] was raised inside [set_custom_time]. *)
Inductive ValueError :=
| InvalidTimeFormat
| InvalidLiteral (segment : string)
| TimeNotPositive.

(** Calls that leave the instance: the countdown thread started by
    [start_timer], the desktop notification, the alert sound and the error
    dialog. *)
Inductive Effect :=
| SpawnRunTimer
| Notify (title message : string)
| PlayAlert
| ShowError (title : string) (error : ValueError).

(** Field and widget assignments. *)
Definition set_time_left (v : Z) (s : Timer) : Timer :=
  mkTimer (pomodoro_time s) (short_break_time s) (long_break_time s) v
    (timer_running s) (timer_paused s) (pomodoro_count s) (current_mode s) (ui s).
Definition set_timer_running (b : bool) (s : Timer) : Timer :=
  mkTimer (pomodoro_time s) (short_break_time s) (long_break_time s) (time_left s)
    b (timer_paused s) (pomodoro_count s) (current_mode s) (ui s).
Definition set_timer_paused (b : bool) (s : Timer) : Timer :=
  mkTimer (pomodoro_time s) (short_break_time s) (long_break_time s) (time_left s)
    (timer_running s) b (pomodoro_count s) (current_mode s) (ui s).
Definition set_pomodoro_count (n : Z) (s : Timer) : Timer :=
  mkTimer (pomodoro_time s) (short_break_time s) (long_break_time s) (time_left s)
    (timer_running s) (timer_paused s) n (current_mode s) (ui s).
Definition set_current_mode (m : Mode) (s : Timer) : Timer :=
  mkTimer (pomodoro_time s) (short_break_time s) (long_break_time s) (time_left s)
    (timer_running s) (timer_paused s) (pomodoro_count s) m (ui s).
Definition set_ui (w : Widgets) (s : Timer) : Timer :=
  mkTimer (pomodoro_time s) (short_break_time s) (long_break_time s) (time_left s)
    (timer_running s) (timer_paused s) (pomodoro_count s) (current_mode s) w.

Definition with_time_label (t : string) (w : Widgets) : Widgets :=
  mkWidgets t (mode_label w) (start_button w) (pause_button w)
    (pause_button_text w) (custom_button w) (custom_entry w).
Definition with_mode_label (t : string) (w : Widgets) : Widgets :=
  mkWidgets (time_label w) t (start_button w) (pause_button w)
    (pause_button_text w) (custom_button w) (custom_entry w).
Definition with_start_button (b : WState) (w : Widgets) : Widgets :=
  mkWidgets (time_label w) (mode_label w) b (pause_button w)
    (pause_button_text w) (custom_button w) (custom_entry w).
Definition with_pause_button (b : WState) (w : Widgets) : Widgets :=
  mkWidgets (time_label w) (mode_label w) (start_button w) b
    (pause_button_text w) (custom_button w) (custom_entry w).
Definition with_pause_button_text (t : string) (w : Widgets) : Widgets :=
  mkWidgets (time_label w) (mode_label w) (start_button w) (pause_button w)
    t (custom_button w) (custom_entry w).
Definition with_custom_button (b : WState) (w : Widgets) : Widgets :=
  mkWidgets (time_label w) (mode_label w) (start_button w) (pause_button w)
    (pause_button_text w) b (custom_entry w).
Definition with_custom_entry (t : string) (w : Widgets) : Widgets :=
  mkWidgets (time_label w) (mode_label w) (start_button w) (pause_button w)
    (pause_button_text w) (custom_button w) t.

(** ** Methods as state transformers that log their outside calls *)

Definition M (A : Type) : Type := Timer -> A * Timer * list Effect.

Definition ret {A} (a : A) : M A := fun s => (a, s, []).

Definition bind {A B} (m : M A) (k : A -> M B) : M B :=
  fun s =>
    let '(a, s1, e1) := m s in
    let '(b, s2, e2) := k a s1 in
    (b, s2, (e1 ++ e2)%list).

Definition get : M Timer := fun s => (s, s, []).
Definition modify (f : Timer -> Timer) : M unit := fun s => (tt, f s, []).
Definition configure (f : Widgets -> Widgets) : M unit :=
  modify (fun s => set_ui (f (ui s)) s).
Definition emit (e : Effect) : M unit := fun s => (tt, s, [e]).

Declare Scope timer_scope.
Delimit Scope timer_scope with timer.
Notation "x <- m ;; k" := (bind m (fun x => k))
  (at level 61, m at next level, right associativity) : timer_scope.
Notation "m ;; k" := (bind m (fun _ => k))
  (at level 61, right associativity) : timer_scope.
Local Open Scope timer_scope.

(** State and outside calls after running a method. *)
Definition exec {A} (m : M A) (s : Timer) : Timer := snd (fst (m s)).
Definition effects {A} (m : M A) (s : Timer) : list Effect := snd (m s).
Definition value {A} (m : M A) (s : Timer) : A := fst (fst (m s)).

(** [__init__] followed by [setup_ui]. *)
Definition init_ui : Widgets :=
  mkWidgets "00:25:00" "Pomodoro" Normal Disabled "Pause" Normal "".

Definition init : Timer :=
  mkTimer (25 * 60) (5 * 60) (30 * 60) (25 * 60) false false 0 Pomodoro init_ui.

(** [update_time_display]; the redraw by [root.update()] changes no field
    and is left out. *)
Definition time_text (t : Z) : string :=
  let hours := t / 3600 in
  let remainder := t mod 3600 in
  let mins := remainder / 60 in
  let secs := remainder mod 60 in
  PyStr.format_02d hours ++ ":" ++ PyStr.format_02d mins ++ ":" ++ PyStr.format_02d secs.

Definition update_time_display : M unit :=
  s <- get ;;
  configure (with_time_label (time_text (time_left s))).

(** [show_notification] and [play_alert_sound]: every branch hands the
    message to the notifier or to the console, and the sound is played when
    one was loaded; neither touches the instance. *)
Definition show_notification (title message : string) : M unit :=
  emit (Notify title message).

Definition play_alert_sound : M unit := emit PlayAlert.

(** [start_timer]. *)
Definition start_timer : M unit :=
  s <- get ;;
  if negb (timer_running s) then
    modify (set_timer_running true) ;;
    configure (with_start_button Disabled) ;;
    configure (with_pause_button Normal) ;;
    configure (with_custom_button Disabled) ;;
    emit SpawnRunTimer
  else ret tt.

(** [timer_finished]. *)
Definition timer_finished : M unit :=
  s <- get ;;
  (if is_pomodoro (current_mode s) then
     modify (set_pomodoro_count (pomodoro_count s + 1)) ;;
     s1 <- get ;;
     if pomodoro_count s1 mod 4 =? 0 then
       modify (set_current_mode LongBreak) ;;
       modify (fun s => set_time_left (long_break_time s) s)
     else
       modify (set_current_mode ShortBreak) ;;
       modify (fun s => set_time_left (short_break_time s) s)
   else
     modify (set_current_mode Pomodoro) ;;
     modify (fun s => set_time_left (pomodoro_time s) s)) ;;
  s2 <- get ;;
  configure (with_mode_label (mode_text (current_mode s2))) ;;
  update_time_display ;;
  show_notification "Pomodoro Timer" (mode_text (current_mode s2) ++ " started!") ;;
  play_alert_sound.

(** [pause_timer]. *)
Definition pause_timer : M unit :=
  s <- get ;;
  if timer_paused s then
    modify (set_timer_paused false) ;;
    configure (with_pause_button_text "Pause")
  else
    modify (set_timer_paused true) ;;
    configure (with_pause_button_text "Unpause").

(** [reset_timer]. *)
Definition reset_timer : M unit :=
  modify (set_timer_running false) ;;
  modify (set_timer_paused false) ;;
  modify (fun s => set_time_left (pomodoro_time s) s) ;;
  modify (set_current_mode Pomodoro) ;;
  modify (set_pomodoro_count 0) ;;
  update_time_display ;;
  s <- get ;;
  configure (with_mode_label (mode_text (current_mode s))) ;;
  configure (with_start_button Normal) ;;
  configure (fun w => with_pause_button_text "Pause" (with_pause_button Disabled w)) ;;
  configure (with_custom_button Normal).

(** The part of [set_custom_time] before the test on [total_seconds]: the
    entry text is split at colons, the three pieces are converted and
    combined.  [inl] carries the [ValueError] raised on the way. *)
Definition custom_total (text : string) : ValueError + Z :=
  match PyStr.split ":" text with
  | [h; m; sec] =>
      match PyStr.int h with
      | None => inl (InvalidLiteral h)
      | Some hours =>
          match PyStr.int m with
          | None => inl (InvalidLiteral m)
          | Some minutes =>
              match PyStr.int sec with
              | None => inl (InvalidLiteral sec)
              | Some seconds => inr (hours * 3600 + minutes * 60 + seconds)
              end
          end
      end
  | _ => inl InvalidTimeFormat
  end.

(** [set_custom_time]: the [except ValueError] handler shows the dialog. *)
Definition set_custom_time : M unit :=
  s <- get ;;
  match custom_total (custom_entry (ui s)) with
  | inr total_seconds =>
      if total_seconds >? 0 then
        modify (set_time_left total_seconds) ;;
        update_time_display
      else emit (ShowError "Invalid Input" TimeNotPositive)
  | inl error => emit (ShowError "Invalid Input" error)
  end.

(** [format_custom_time], bound to key releases in the entry: the colons
    are removed and put back before the characters of index 2 and 4. *)
Fixpoint remove_colons (s : string) : string :=
  match s with
  | EmptyString => EmptyString
  | String c r => if Ascii.eqb c ":" then remove_colons r else String c (remove_colons r)
  end.

Fixpoint insert_colons (i : nat) (s : string) : string :=
  match s with
  | EmptyString => EmptyString
  | String c r =>
      if ((i =? 2) || (i =? 4))%nat then String ":" (String c (insert_colons (S i) r))
      else String c (insert_colons (S i) r)
  end.

Definition format_custom_time : M unit :=
  s <- get ;;
  let current := remove_colons (custom_entry (ui s)) in
  configure (with_custom_entry (insert_colons 0 current)).

(** ** The countdown loop of [run_timer] *)

(** Test of the inner [while] (line 188). *)
Definition inner_test (s : Timer) : bool :=
  (time_left s >? 0) && timer_running s.

Definition decrement : M unit :=
  modify (fun s => set_time_left (time_left s - 1) s).

(** Body of the inner [while] (lines 189-194); the two [time.sleep] calls
    only let time pass. *)
Definition loop_body : M unit :=
  s <- get ;;
  if negb (timer_paused s) then
    update_time_display ;;
    decrement
  else ret tt.

(** One tick: the countdown thread taken from the test of the inner loop
    to its next arrival at a loop test, with no other method run in between.
    When the inner test holds the body runs once and, if the test then
    fails, the thread falls through to line 196 at once; when it already
    fails the thread goes to line 196 directly. *)
Definition tick : M unit :=
  s <- get ;;
  if inner_test s then
    loop_body ;;
    s1 <- get ;;
    if inner_test s1 then ret tt
    else if timer_running s1 then timer_finished else ret tt
  else if timer_running s then timer_finished else ret tt.

Fixpoint ticks (n : nat) : M unit :=
  match n with
  | O => ret tt
  | S k => tick ;; ticks k
  end.

(** The same loop statement by statement, for one thread.  A program point
    names the statement the thread executes next. *)
Inductive Pc :=
| OuterTest     (* line 187: while self.timer_running *)
| InnerTest     (* line 188: while self.time_left > 0 and self.timer_running *)
| PauseTest     (* line 189: if not self.timer_paused, then line 190 *)
| Sleep1        (* inside time.sleep(1), line 191; line 192 comes next *)
| Sleep01       (* inside time.sleep(0.1), line 194 *)
| FinishTest    (* line 196: if self.timer_running, then line 197 *)
| Exited.

Definition thread_step (pc : Pc) : M Pc :=
  match pc with
  | OuterTest =>
      s <- get ;;
      ret (if timer_running s then InnerTest else Exited)
  | InnerTest =>
      s <- get ;;
      ret (if inner_test s then PauseTest else FinishTest)
  | PauseTest =>
      s <- get ;;
      if negb (timer_paused s) then update_time_display ;; ret Sleep1
      else ret Sleep01
  | Sleep1 => decrement ;; ret InnerTest
  | Sleep01 => ret InnerTest
  | FinishTest =>
      s <- get ;;
      (if timer_running s then timer_finished else ret tt) ;;
      ret OuterTest
  | Exited => ret Exited
  end.

Fixpoint thread_run (n : nat) (pc : Pc) : M Pc :=
  match n with
  | O => ret pc
  | S k => pc' <- thread_step pc ;; thread_run k pc'
  end.

(** ** The user interface: buttons, their commands, the entry *)

Inductive Button := StartButton | PauseButton | ResetButton | CustomButton.

(** The [command] given to each button in [setup_ui]. *)
Definition command (b : Button) : M unit :=
  match b with
  | StartButton => start_timer
  | PauseButton => pause_timer
  | ResetButton => reset_timer
  | CustomButton => set_custom_time
  end.

(** The reset button is never configured after its creation. *)
Definition button_state (b : Button) (w : Widgets) : WState :=
  match b with
  | StartButton => start_button w
  | PauseButton => pause_button w
  | ResetButton => Normal
  | CustomButton => custom_button w
  end.

(** A click runs the command only when the button is in state normal. *)
Definition press (b : Button) : M unit :=
  s <- get ;;
  if is_normal (button_state b (ui s)) then command b else ret tt.

(** The content of the entry is replaced, by typing or by pasting. *)
Definition enter (text : string) : M unit :=
  configure (with_custom_entry text).

(** The operation [setCustomDuration(text)]: the text is put in the entry
    and [set_custom_time] reads it back. *)
Definition set_custom_duration (text : string) : M unit :=
  enter text ;; set_custom_time.

(** ** Serialised runs: methods and ticks one after the other *)

Inductive Op :=
| Call (b : Button)
| Enter (text : string)
| Tick.

(** The method is called whatever the state of its button. *)
Definition run_op (o : Op) : M unit :=
  match o with
  | Call b => command b
  | Enter text => enter text
  | Tick => tick
  end.

(** The method is reached through its button. *)
Definition run_ui (o : Op) : M unit :=
  match o with
  | Call b => press b
  | Enter text => enter text
  | Tick => tick
  end.

Inductive reachable : Timer -> Prop :=
| reachable_init : reachable init
| reachable_op s o : reachable s -> reachable (exec (run_op o) s).

Inductive ui_reachable : Timer -> Prop :=
| ui_reachable_init : ui_reachable init
| ui_reachable_op s o : ui_reachable s -> ui_reachable (exec (run_ui o) s).

(** ** Interleaved runs: the interface and the countdown threads *)

Record World := mkWorld {
  timer : Timer;
  threads : list Pc
}.

Inductive Event :=
| Press (b : Button)
| Key (text : string)
| Sched (i : nat).

(** Every [threading.Thread(target=self.run_timer).start()] adds a thread
    at the top of [run_timer]. *)
Fixpoint spawned (es : list Effect) : list Pc :=
  match es with
  | [] => []
  | SpawnRunTimer :: r => OuterTest :: spawned r
  | _ :: r => spawned r
  end.

Fixpoint set_nth {A} (i : nat) (a : A) (l : list A) {struct l} : list A :=
  match l, i with
  | [], _ => []
  | _ :: t, O => a :: t
  | h :: t, S j => h :: set_nth j a t
  end.

Definition world_step (e : Event) (w : World) : World :=
  match e with
  | Press b =>
      let r := press b (timer w) in
      mkWorld (snd (fst r)) (threads w ++ spawned (snd r))%list
  | Key text => mkWorld (exec (enter text) (timer w)) (threads w)
  | Sched i =>
      match nth_error (threads w) i with
      | Some pc =>
          let r := thread_step pc (timer w) in
          mkWorld (snd (fst r)) (set_nth i (fst (fst r)) (threads w))
      | None => w
      end
  end.

Definition world_run (es : list Event) (w : World) : World :=
  fold_left (fun w e => world_step e w) es w.

Definition init_world : World := mkWorld init [].

(** ** Vocabulary of the statements *)

(** Default durations, as set by [__init__]. *)
Definition default_config (s : Timer) : Prop :=
  pomodoro_time s = 1500 /\ short_break_time s = 300 /\ long_break_time s = 1800.

(** Duration that [timer_finished] assigns for a mode. *)
Definition duration (s : Timer) (m : Mode) : Z :=
  match m with
  | Pomodoro => pomodoro_time s
  | ShortBreak => short_break_time s
  | LongBreak => long_break_time s
  end.

(** Facts that every method and every tick preserve: the durations keep
    their default values, [time_left] stays positive, and the caption of
    the pause button follows [timer_paused]. *)
Definition steady (s : Timer) : Prop :=
  default_config s
  /\ 0 < time_left s
  /\ pause_button_text (ui s) = (if timer_paused s then "Unpause" else "Pause").


(** Facts kept by runs that go through the buttons: while the timer is not
    running the pause button is disabled and [timer_paused] is false. *)
Definition gated (s : Timer) : Prop :=
  timer_running s = false ->
  pause_button (ui s) = Disabled /\ timer_paused s = false.

(** Text made of decimal digits only, its value read left to right, and
    text without a given character. *)
Fixpoint digits_only (s : string) : bool :=
  match s with
  | EmptyString => true
  | String c r => match PyStr.digit_val c with Some _ => digits_only r | None => false end
  end.

Fixpoint horner (acc : Z) (s : string) : Z :=
  match s with
  | EmptyString => acc
  | String c r =>
      match PyStr.digit_val c with
      | Some d => horner (acc * 10 + d) r
      | None => acc
      end
  end.

Fixpoint free_of (sep : ascii) (s : string) : bool :=
  match s with
  | EmptyString => true
  | String c r => negb (Ascii.eqb c sep) && free_of sep r
  end.


(** A list of operations run in order. *)
Fixpoint run (ops : list Op) : M unit :=
  match ops with
  | [] => ret tt
  | o :: r => run_op o ;; run r
  end.

(** A tick that ends a Pomodoro interval: the mode is Pomodoro and the tick
    makes the outside calls of [timer_finished]. *)
Definition completes_pomodoro (s : Timer) : bool :=
  is_pomodoro (current_mode s)
  && match effects tick s with [] => false | _ :: _ => true end.

(** Pomodoro intervals completed since the last reset when [ops] are run
    from [s], [n] of them being completed already. *)
Fixpoint completed_pomodoros (ops : list Op) (s : Timer) (n : Z) : Z :=
  match ops with
  | [] => n
  | o :: r =>
      let n' :=
        match o with
        | Call ResetButton => 0
        | Tick => if completes_pomodoro s then n + 1 else n
        | _ => n
        end in
      completed_pomodoros r (exec (run_op o) s) n'
  end.

(** What a single countdown thread can rely on between two of its steps:
    the default durations, [time_left] at least 0, and [time_left] positive
    while the thread is between the inner test and its decrement. *)
Definition thread_safe (w : World) : Prop :=
  default_config (timer w)
  /\ 0 <= time_left (timer w)
  /\ forall pc, threads w = [pc] -> pc = PauseTest \/ pc = Sleep1 ->
                0 < time_left (timer w).

(** ** The remaining methods *)

(** [on_resize]: the size given to the timer font for a window of the given
    width and height. *)
Definition resize_font_size (width height : Z) : Z :=
  Z.min (width / 10) (height / 5).

(** [load_system_sound].  The file system and the mixer are the two
    questions the method asks of a path: [os.path.exists] and whether
    [pygame.mixer.Sound] returns or raises [pygame.error].  A loaded sound
    is named by its path; the second component lists the lines printed. *)
Definition sound_paths : list string :=
  ["/usr/share/sounds/ubuntu/stereo/system-ready.ogg";
   "/usr/share/sounds/freedesktop/stereo/complete.oga";
   "/usr/share/sounds/freedesktop/stereo/alarm-clock-elapsed.oga"].

Definition failed_to_load (path : string) : string :=
  ("Failed to load sound file: " ++ path)%string.

Definition no_sound_warning : string :=
  "Warning: Could not load any system sound. Audio alerts will be disabled.".

Fixpoint load_first (path_exists can_load : string -> bool) (paths : list string)
  : option string * list string :=
  match paths with
  | [] => (None, [])
  | path :: rest =>
      if path_exists path then
        if can_load path then (Some path, [])
        else
          let r := load_first path_exists can_load rest in
          (fst r, failed_to_load path :: snd r)
      else load_first path_exists can_load rest
  end.

Definition load_system_sound (path_exists can_load : string -> bool)
  : option string * list string :=
  let r := load_first path_exists can_load sound_paths in
  match fst r with
  | Some sound => (Some sound, snd r)
  | None => (None, (snd r ++ [no_sound_warning])%list)
  end.

(** The start of an interval in a running timer with the default durations. *)
Definition at_interval (s : Timer) (m : Mode) (c : Z) : Prop :=
  default_config s
  /\ timer_running s = true
  /\ timer_paused s = false
  /\ current_mode s = m
  /\ time_left s = duration s m
  /\ pomodoro_count s = c.


Definition buttons_consistent (s : Timer) : Prop :=
  start_button (ui s) = (if timer_running s then Disabled else Normal)
  /\ pause_button (ui s) = (if timer_running s then Normal else Disabled)
  /\ custom_button (ui s) = (if timer_running s then Disabled else Normal).

(** The mode agrees with the count: a break is a Long Break exactly when the
    count is a multiple of 4, and a break is only entered with a positive
    count. *)
Definition mode_matches_count (s : Timer) : Prop :=
  0 <= pomodoro_count s
  /\ (current_mode s = LongBreak -> 0 < pomodoro_count s /\ pomodoro_count s mod 4 = 0)
  /\ (current_mode s = ShortBreak -> 0 < pomodoro_count s /\ pomodoro_count s mod 4 <> 0).
(** * Properties *)

(** ** Concrete runs of the text primitives *)

Example split_abc : PyStr.split ":" "a:b:c" = ["a"; "b"; "c"].
Proof. reflexivity. Qed.
Example split_empty : PyStr.split ":" "" = [""].
Proof. reflexivity. Qed.
Example split_colons : PyStr.split ":" "::" = [""; ""; ""].
Proof. reflexivity. Qed.
Example int_samples :
  map PyStr.int [" 1 "; "1_0"; "_1"; "1_"; "1__0"; "+1"; "-1"; "- 1"; ""; "012"; "-0"; "1 2"; "1a"]
  = [Some 1; Some 10; None; None; None; Some 1; Some (-1); None; None; Some 12; Some 0; None; None].
Proof. reflexivity. Qed.
Example format_samples :
  map PyStr.format_02d [5; -5; 123; 0; 10; 4300; -12]
  = ["05"; "-5"; "123"; "00"; "10"; "4300"; "-12"].
Proof. reflexivity. Qed.

(** ** Unfolding the methods *)

Ltac unfold_monad :=
  unfold exec, effects, value, bind, get, modify, configure, emit, ret in *.

Ltac unfold_methods :=
  unfold start_timer, pause_timer, reset_timer, set_custom_time, timer_finished,
    tick, loop_body, decrement, update_time_display, show_notification,
    play_alert_sound, press, enter, set_custom_duration in *;
  unfold_monad.

Lemma exec_bind {A B} (m : M A) (k : A -> M B) s :
  exec (bind m k) s = exec (k (value m s)) (exec m s).
Proof.
  unfold exec, value, bind. destruct (m s) as [[a s1] e1]. cbn.
  destruct (k a s1) as [[b s2] e2]. reflexivity.
Qed.

Lemma effects_bind {A B} (m : M A) (k : A -> M B) s :
  effects (bind m k) s = (effects m s ++ effects (k (value m s)) (exec m s))%list.
Proof.
  unfold effects, exec, value, bind. destruct (m s) as [[a s1] e1]. cbn.
  destruct (k a s1) as [[b s2] e2]. reflexivity.
Qed.

Lemma exec_update_time_display s :
  exec update_time_display s
  = set_ui (with_time_label (time_text (time_left s)) (ui s)) s.
Proof. reflexivity. Qed.

Lemma timer_finished_pomodoro s :
  current_mode s = Pomodoro ->
  let m := if (pomodoro_count s + 1) mod 4 =? 0 then LongBreak else ShortBreak in
  exec timer_finished s
  = mkTimer (pomodoro_time s) (short_break_time s) (long_break_time s)
      (duration s m) (timer_running s) (timer_paused s) (pomodoro_count s + 1) m
      (with_time_label (time_text (duration s m))
         (with_mode_label (mode_text m) (ui s))).
Proof.
  intros Hm. destruct s as [pt sb lb tl run pau cnt mode w]; simpl in Hm; subst mode.
  unfold_methods; cbn.
  destruct ((cnt + 1) mod 4 =? 0); reflexivity.
Qed.

Lemma timer_finished_break s :
  current_mode s <> Pomodoro ->
  exec timer_finished s
  = mkTimer (pomodoro_time s) (short_break_time s) (long_break_time s)
      (pomodoro_time s) (timer_running s) (timer_paused s) (pomodoro_count s) Pomodoro
      (with_time_label (time_text (pomodoro_time s))
         (with_mode_label "Pomodoro" (ui s))).
Proof.
  intros Hm. destruct s as [pt sb lb tl run pau cnt mode w]; simpl in Hm.
  destruct mode; try congruence; reflexivity.
Qed.

Lemma timer_finished_effects s :
  effects timer_finished s
  = [Notify "Pomodoro Timer" (mode_text (current_mode (exec timer_finished s)) ++ " started!");
     PlayAlert].
Proof.
  destruct s as [pt sb lb tl run pau cnt mode w].
  destruct mode; unfold_methods; cbn; try reflexivity.
  destruct ((cnt + 1) mod 4 =? 0); reflexivity.
Qed.

Lemma timer_finished_time_left s :
  time_left (exec timer_finished s)
  = duration s (current_mode (exec timer_finished s)).
Proof.
  destruct (is_pomodoro (current_mode s)) eqn:E.
  - assert (H : current_mode s = Pomodoro) by (destruct (current_mode s); simpl in E; congruence).
    rewrite (timer_finished_pomodoro s H). reflexivity.
  - assert (H : current_mode s <> Pomodoro) by (destruct (current_mode s); simpl in E; congruence).
    rewrite (timer_finished_break s H). reflexivity.
Qed.

Lemma timer_finished_keeps s :
  let s' := exec timer_finished s in
  timer_running s' = timer_running s /\ timer_paused s' = timer_paused s /\
  pomodoro_time s' = pomodoro_time s /\ short_break_time s' = short_break_time s /\
  long_break_time s' = long_break_time s.
Proof.
  destruct (is_pomodoro (current_mode s)) eqn:E.
  - assert (H : current_mode s = Pomodoro) by (destruct (current_mode s); simpl in E; congruence).
    cbv zeta. rewrite (timer_finished_pomodoro s H). cbn. repeat split.
  - assert (H : current_mode s <> Pomodoro) by (destruct (current_mode s); simpl in E; congruence).
    cbv zeta. rewrite (timer_finished_break s H). cbn. repeat split.
Qed.

(** ** Interval completion *)

Lemma exec_loop_body s :
  exec loop_body s
  = if timer_paused s then s
    else set_time_left (time_left s - 1)
           (set_ui (with_time_label (time_text (time_left s)) (ui s)) s).
Proof.
  unfold loop_body. unfold_monad. destruct (timer_paused s); reflexivity.
Qed.

Lemma effects_loop_body s : effects loop_body s = [].
Proof.
  unfold loop_body, update_time_display, decrement. unfold_monad.
  destruct (negb (timer_paused s)); reflexivity.
Qed.

Lemma exec_tick s :
  exec tick s
  = if inner_test s then
      let s1 := exec loop_body s in
      if inner_test s1 then s1
      else if timer_running s1 then exec timer_finished s1 else s1
    else if timer_running s then exec timer_finished s else s.
Proof.
  unfold tick, exec, bind, get, ret.
  destruct (inner_test s).
  - destruct (loop_body s) as [[u s1] e1]. cbn -[timer_finished inner_test].
    destruct (inner_test s1); [reflexivity|].
    destruct (timer_running s1); [|reflexivity].
    destruct (timer_finished s1) as [[u2 s2] e2]. reflexivity.
  - destruct (timer_running s); [|reflexivity].
    destruct (timer_finished s) as [[u2 s2] e2]. reflexivity.
Qed.

Lemma effects_tick s :
  effects tick s
  = if inner_test s then
      let s1 := exec loop_body s in
      if inner_test s1 then []
      else if timer_running s1 then effects timer_finished s1 else []
    else if timer_running s then effects timer_finished s else [].
Proof.
  pose proof (effects_loop_body s) as He.
  unfold tick, exec, effects, bind, get, ret in *.
  destruct (inner_test s).
  - destruct (loop_body s) as [[u s1] e1]. cbn -[timer_finished inner_test] in *. subst e1.
    destruct (inner_test s1); [reflexivity|].
    destruct (timer_running s1); [|reflexivity].
    destruct (timer_finished s1) as [[u2 s2] e2]. reflexivity.
  - destruct (timer_running s); [|reflexivity].
    destruct (timer_finished s) as [[u2 s2] e2]. reflexivity.
Qed.

Lemma inner_test_true s :
  inner_test s = true <-> 0 < time_left s /\ timer_running s = true.
Proof.
  unfold inner_test. rewrite andb_true_iff.
  destruct (Z.gtb_spec (time_left s) 0); intuition (try lia; try congruence).
Qed.

Lemma inner_test_false s :
  inner_test s = false <-> time_left s <= 0 \/ timer_running s = false.
Proof.
  unfold inner_test. rewrite andb_false_iff.
  destruct (Z.gtb_spec (time_left s) 0); intuition (try lia; try congruence).
Qed.

(** What one tick does, case by case. *)
Lemma tick_counts_down s :
  timer_running s = true -> timer_paused s = false -> 1 < time_left s ->
  exec tick s = exec decrement (exec update_time_display s)
  /\ effects tick s = [].
Proof.
  intros Hr Hp Ht. rewrite exec_tick, effects_tick.
  assert (H1 : inner_test s = true) by (apply inner_test_true; split; [lia|assumption]).
  rewrite H1. cbv zeta. rewrite exec_loop_body, Hp.
  assert (H2 : inner_test (set_time_left (time_left s - 1)
                 (set_ui (with_time_label (time_text (time_left s)) (ui s)) s)) = true).
  { apply inner_test_true. cbn. split; [lia|assumption]. }
  rewrite H2. split; reflexivity.
Qed.

Lemma tick_completes s :
  timer_running s = true -> timer_paused s = false -> time_left s = 1 ->
  time_left (exec loop_body s) = 0
  /\ exec tick s = exec timer_finished (exec loop_body s)
  /\ effects tick s = effects timer_finished (exec loop_body s).
Proof.
  intros Hr Hp Ht. rewrite exec_tick, effects_tick.
  assert (H1 : inner_test s = true) by (apply inner_test_true; split; [lia|assumption]).
  rewrite H1. cbv zeta. rewrite exec_loop_body, Hp.
  assert (H2 : inner_test (set_time_left (time_left s - 1)
                 (set_ui (with_time_label (time_text (time_left s)) (ui s)) s)) = false).
  { apply inner_test_false. cbn. left; lia. }
  rewrite H2. cbn [timer_running set_time_left set_ui time_left]. rewrite Hr.
  repeat split. lia.
Qed.


Lemma tick_paused s :
  timer_paused s = true -> 0 < time_left s ->
  exec tick s = s /\ effects tick s = [].
Proof.
  intros Hp Ht. rewrite exec_tick, effects_tick.
  cbv zeta. rewrite exec_loop_body, Hp.
  destruct (inner_test s) eqn:E; [split; reflexivity|].
  apply inner_test_false in E. destruct E as [E|E]; [lia|].
  rewrite E. split; reflexivity.
Qed.

Lemma tick_idle s :
  timer_running s = false -> exec tick s = s /\ effects tick s = [].
Proof.
  intros Hr. rewrite exec_tick, effects_tick.
  assert (H1 : inner_test s = false) by (apply inner_test_false; right; assumption).
  rewrite H1, Hr. split; reflexivity.
Qed.

(** ** The other methods *)

Lemma exec_set_custom_time s :
  exec set_custom_time s
  = match custom_total (custom_entry (ui s)) with
    | inr total =>
        if total >? 0 then
          set_ui (with_time_label (time_text total) (ui s)) (set_time_left total s)
        else s
    | inl _ => s
    end.
Proof.
  unfold set_custom_time, update_time_display. unfold_monad.
  destruct (custom_total (custom_entry (ui s))) as [e|t]; [reflexivity|].
  destruct (t >? 0); reflexivity.
Qed.

Lemma effects_set_custom_time s :
  effects set_custom_time s
  = match custom_total (custom_entry (ui s)) with
    | inr total =>
        if total >? 0 then [] else [ShowError "Invalid Input" TimeNotPositive]
    | inl error => [ShowError "Invalid Input" error]
    end.
Proof.
  unfold set_custom_time, update_time_display. unfold_monad.
  destruct (custom_total (custom_entry (ui s))) as [e|t]; [reflexivity|].
  destruct (t >? 0); reflexivity.
Qed.

Lemma exec_start_timer s :
  exec start_timer s
  = if timer_running s then s
    else set_ui (with_custom_button Disabled
                   (with_pause_button Normal (with_start_button Disabled (ui s))))
           (set_timer_running true s).
Proof.
  unfold start_timer. unfold_monad. destruct (timer_running s); reflexivity.
Qed.

Lemma effects_start_timer s :
  effects start_timer s = if timer_running s then [] else [SpawnRunTimer].
Proof.
  unfold start_timer. unfold_monad. destruct (timer_running s); reflexivity.
Qed.

Lemma exec_pause_timer s :
  exec pause_timer s
  = if timer_paused s then
      set_ui (with_pause_button_text "Pause" (ui s)) (set_timer_paused false s)
    else
      set_ui (with_pause_button_text "Unpause" (ui s)) (set_timer_paused true s).
Proof.
  unfold pause_timer. unfold_monad. destruct (timer_paused s); reflexivity.
Qed.

Lemma exec_reset_timer s :
  exec reset_timer s
  = mkTimer (pomodoro_time s) (short_break_time s) (long_break_time s)
      (pomodoro_time s) false false 0 Pomodoro
      (mkWidgets (time_text (pomodoro_time s)) "Pomodoro" Normal Disabled "Pause"
         Normal (custom_entry (ui s))).
Proof. reflexivity. Qed.

Lemma exec_enter text s :
  exec (enter text) s = set_ui (with_custom_entry text (ui s)) s.
Proof. reflexivity. Qed.

(** ** Invariants of serialised runs *)

Lemma steady_init : steady init.
Proof. unfold steady, default_config. cbn. repeat split; reflexivity. Qed.

Lemma steady_command b s : steady s -> steady (exec (command b) s).
Proof.
  intros ((Hp & Hs & Hl) & Ht & Hb). destruct b; cbn [command].
  - rewrite exec_start_timer. destruct (timer_running s).
    + repeat split; assumption.
    + repeat split; assumption.
  - rewrite exec_pause_timer. destruct (timer_paused s); repeat split; assumption.
  - rewrite exec_reset_timer. unfold steady, default_config. cbn.
    repeat split; try assumption. lia.
  - rewrite exec_set_custom_time.
    destruct (custom_total (custom_entry (ui s))) as [e|t].
    + repeat split; assumption.
    + destruct (Z.gtb_spec t 0).
      * repeat split; try assumption.
      * repeat split; assumption.
Qed.

Lemma steady_tick s : steady s -> steady (exec tick s).
Proof.
  intros ((Hp & Hs & Hl) & Ht & Hb).
  destruct (timer_running s) eqn:Hr.
  2:{ rewrite (proj1 (tick_idle s Hr)). repeat split; assumption. }
  destruct (timer_paused s) eqn:Hpa.
  { rewrite (proj1 (tick_paused s Hpa Ht)). rewrite <- Hpa in Hb at 1.
    repeat split; try assumption. rewrite Hpa in *. assumption. }
  destruct (Z.eq_dec (time_left s) 1) as [E|E].
  - destruct (tick_completes s Hr Hpa E) as (_ & -> & _).
    rewrite exec_loop_body, Hpa.
    destruct s as [pt sb lb tl run pau cnt mode w]; cbn in *; subst.
    destruct mode.
    + rewrite timer_finished_pomodoro by reflexivity. unfold steady, default_config. cbn.
      destruct ((cnt + 1) mod 4 =? 0); cbn; repeat split; try lia; assumption.
    + rewrite timer_finished_break by (cbn; congruence). unfold steady, default_config. cbn.
      repeat split; try lia; assumption.
    + rewrite timer_finished_break by (cbn; congruence). unfold steady, default_config. cbn.
      repeat split; try lia; assumption.
  - destruct (tick_counts_down s Hr Hpa ltac:(lia)) as (-> & _).
    unfold steady, default_config. cbn. rewrite Hpa.
    repeat split; try assumption. lia.
Qed.

Lemma reachable_steady s : reachable s -> steady s.
Proof.
  induction 1 as [|s o _ IH]; [exact steady_init|].
  destruct o as [b|text|]; cbn [run_op].
  - apply steady_command; assumption.
  - rewrite exec_enter. destruct IH as ((? & ? & ?) & ? & ?). repeat split; assumption.
  - apply steady_tick; assumption.
Qed.


(** ** Interval completion and the count of Pomodoros *)

Lemma exec_run_app ops1 ops2 s :
  exec (run (ops1 ++ ops2)) s = exec (run ops2) (exec (run ops1) s).
Proof.
  revert s. induction ops1 as [|o r IH]; intros s; [reflexivity|].
  cbn [run app]. rewrite !exec_bind. apply IH.
Qed.

Lemma run_reachable ops : reachable (exec (run ops) init).
Proof.
  induction ops as [|o r IH] using rev_ind; [constructor|].
  rewrite exec_run_app. cbn [run]. rewrite exec_bind.
  apply (reachable_op _ o IH).
Qed.

(** A tick either runs [timer_finished], on the state it was given or on
    that state after the loop body, or makes no outside call and keeps mode
    and count. *)
Lemma tick_cases s :
  (exists u,
     (u = s \/ u = exec loop_body s)
     /\ timer_running u = true
     /\ exec tick s = exec timer_finished u
     /\ effects tick s = effects timer_finished u)
  \/ (effects tick s = []
      /\ pomodoro_count (exec tick s) = pomodoro_count s
      /\ current_mode (exec tick s) = current_mode s).
Proof.
  rewrite exec_tick, effects_tick.
  assert (Hb : pomodoro_count (exec loop_body s) = pomodoro_count s
               /\ current_mode (exec loop_body s) = current_mode s).
  { rewrite exec_loop_body. destruct (timer_paused s); split; reflexivity. }
  destruct (inner_test s).
  - cbv zeta. destruct (inner_test (exec loop_body s)).
    + right. split; [reflexivity|exact Hb].
    + destruct (timer_running (exec loop_body s)) eqn:Hr.
      * left. exists (exec loop_body s). repeat split; auto.
      * right. split; [reflexivity|exact Hb].
  - destruct (timer_running s) eqn:Hr.
    + left. exists s. repeat split; auto.
    + right. repeat split.
Qed.

Lemma loop_body_keeps s :
  pomodoro_count (exec loop_body s) = pomodoro_count s
  /\ current_mode (exec loop_body s) = current_mode s
  /\ pomodoro_time (exec loop_body s) = pomodoro_time s
  /\ short_break_time (exec loop_body s) = short_break_time s
  /\ long_break_time (exec loop_body s) = long_break_time s.
Proof. rewrite exec_loop_body. destruct (timer_paused s); repeat split. Qed.

Lemma tick_count s :
  pomodoro_count (exec tick s)
  = if completes_pomodoro s then pomodoro_count s + 1 else pomodoro_count s.
Proof.
  unfold completes_pomodoro.
  destruct (tick_cases s) as [(u & Hu & Hr & -> & ->) | (-> & Hc & _)].
  - rewrite timer_finished_effects.
    assert (Hk : pomodoro_count u = pomodoro_count s /\ current_mode u = current_mode s).
    { destruct Hu as [->| ->]; [split; reflexivity|].
      pose proof (loop_body_keeps s) as (? & ? & _). split; assumption. }
    destruct Hk as (Hc & Hm).
    destruct (current_mode s) eqn:E; cbn.
    + rewrite (timer_finished_pomodoro u) by congruence. cbn. lia.
    + rewrite (timer_finished_break u) by congruence. cbn. assumption.
    + rewrite (timer_finished_break u) by congruence. cbn. assumption.
  - rewrite andb_false_r. assumption.
Qed.

(** The count held by the timer is the number of Pomodoro intervals
    completed since the last reset. *)
Lemma count_tracks_completions ops s :
  pomodoro_count (exec (run ops) s) = completed_pomodoros ops s (pomodoro_count s).
Proof.
  revert s. induction ops as [|o r IH]; intros s; [reflexivity|].
  cbn [run completed_pomodoros]. rewrite exec_bind, IH. f_equal.
  destruct o as [b|text|]; cbn [run_op].
  - destruct b; cbn [command].
    + rewrite exec_start_timer. destruct (timer_running s); reflexivity.
    + rewrite exec_pause_timer. destruct (timer_paused s); reflexivity.
    + reflexivity.
    + rewrite exec_set_custom_time.
      destruct (custom_total _) as [e|t]; [reflexivity|].
      destruct (t >? 0); reflexivity.
  - reflexivity.
  - apply tick_count.
Qed.

(** C1. When a Pomodoro interval ends with the count going from [n - 1] to
    [n], the next mode is Long Break exactly when [n] is a multiple of 4 and
    Short Break otherwise; when a break ends the next mode is Pomodoro; in
    every case [time_left] becomes the duration configured for the new mode
    (1500, 300, 1800 with the default durations) and [timer_running] keeps
    its value.  In a run from the initial state, the tick that completes
    the [n]-th Pomodoro since the last reset leaves the count at [n], the
    mode at Long Break exactly when [n] is a multiple of 4 and at Short
    Break otherwise, [time_left] at 1800 or 300, and the timer running. *)
Theorem interval_completion_cycle (s : Timer) (n : Z) :
  1 <= n ->
  let s' := exec timer_finished s in
  (current_mode s = Pomodoro -> pomodoro_count s = n - 1 ->
     pomodoro_count s' = n
     /\ (current_mode s' = LongBreak <-> n mod 4 = 0)
     /\ (current_mode s' = ShortBreak <-> n mod 4 <> 0))
  /\ (current_mode s <> Pomodoro ->
      current_mode s' = Pomodoro /\ pomodoro_count s' = pomodoro_count s)
  /\ time_left s' = duration s (current_mode s')
  /\ (default_config s ->
      time_left s' = match current_mode s' with
                     | Pomodoro => 1500 | ShortBreak => 300 | LongBreak => 1800
                     end)
  /\ timer_running s' = timer_running s
  /\ (forall ops,
        s = exec (run ops) init ->
        completes_pomodoro s = true ->
        completed_pomodoros (ops ++ [Tick]) init 0 = n ->
        let t := exec tick s in
        pomodoro_count t = n
        /\ (current_mode t = LongBreak <-> n mod 4 = 0)
        /\ (current_mode t = ShortBreak <-> n mod 4 <> 0)
        /\ time_left t = (if n mod 4 =? 0 then 1800 else 300)
        /\ timer_running t = true).
Proof.
  intros Hn s'. subst s'.
  assert (A : forall u k, current_mode u = Pomodoro -> pomodoro_count u = k - 1 ->
     pomodoro_count (exec timer_finished u) = k
     /\ (current_mode (exec timer_finished u) = LongBreak <-> k mod 4 = 0)
     /\ (current_mode (exec timer_finished u) = ShortBreak <-> k mod 4 <> 0)).
  { intros u k Hm Hc. rewrite (timer_finished_pomodoro u Hm). cbn.
    replace (pomodoro_count u + 1) with k by lia.
    destruct (Z.eqb_spec (k mod 4) 0) as [E|E].
    + split; [lia|]. split; split; intros; congruence.
    + split; [lia|]. split; split; intros; congruence. }
  split; [|split; [|split; [|split; [|split]]]].
  - apply A.
  - intros Hm. rewrite (timer_finished_break s Hm). cbn. split; reflexivity.
  - apply timer_finished_time_left.
  - intros (Hp & Hs & Hl). rewrite timer_finished_time_left.
    destruct (current_mode (exec timer_finished s)); cbn; assumption.
  - apply (timer_finished_keeps s).
  - intros ops Hops Hcomp Hcnt. cbv zeta.
    assert (Hreach : reachable s) by (rewrite Hops; apply run_reachable).
    destruct (reachable_steady s Hreach) as ((Hp & Hs & Hl) & _ & _).
    pose proof (count_tracks_completions (ops ++ [Tick]) init) as Hc.
    rewrite exec_run_app, <- Hops in Hc. cbn [run run_op] in Hc.
    rewrite exec_bind in Hc. change (pomodoro_count init) with 0 in Hc.
    change (exec (ret tt) (exec tick s)) with (exec tick s) in Hc.
    rewrite Hcnt in Hc.
    pose proof (tick_count s) as Ht. rewrite Hcomp, Hc in Ht.
    unfold completes_pomodoro in Hcomp. apply andb_true_iff in Hcomp.
    destruct Hcomp as (Hm & He).
    assert (Hmode : current_mode s = Pomodoro)
      by (destruct (current_mode s); cbn in Hm; congruence).
    destruct (tick_cases s) as [(u & Hu & Hr & Hx & _) | (Hnil & _)].
    2:{ rewrite Hnil in He. discriminate. }
    assert (Hk : pomodoro_count u = pomodoro_count s /\ current_mode u = current_mode s
                 /\ pomodoro_time u = pomodoro_time s
                 /\ short_break_time u = short_break_time s
                 /\ long_break_time u = long_break_time s).
    { destruct Hu as [->| ->]; [repeat split|]. apply loop_body_keeps. }
    destruct Hk as (Kc & Km & Kp & Ks & Kl).
    rewrite Hx in *.
    destruct (A u n ltac:(congruence) ltac:(lia)) as (A1 & A2 & A3).
    split; [assumption|]. split; [assumption|]. split; [assumption|].
    split.
    + rewrite timer_finished_time_left.
      destruct (Z.eqb_spec (n mod 4) 0) as [E|E].
      * rewrite (proj2 A2 E). cbn. congruence.
      * rewrite (proj2 A3 E). cbn. congruence.
    + pose proof (timer_finished_keeps u) as (K1 & _). rewrite K1. assumption.
Qed.

(** Witness for C1: the fourth Pomodoro of a default timer, and the first
    Pomodoro of a run made of a one-second custom time, a start and a tick. *)
Lemma interval_completion_cycle_witness :
  (pomodoro_count (exec timer_finished (set_pomodoro_count 3 init)) = 4
   /\ (current_mode (exec timer_finished (set_pomodoro_count 3 init)) = LongBreak
       <-> 4 mod 4 = 0))
  /\ current_mode
       (exec tick
          (exec (run [Enter "0:0:1"; Call CustomButton; Call StartButton]) init))
     = ShortBreak.
Proof.
  split.
  - destruct (interval_completion_cycle (set_pomodoro_count 3 init) 4 ltac:(lia)) as (H & _).
    destruct (H eq_refl eq_refl) as (H1 & H2 & _).
    exact (conj H1 H2).
  - destruct (interval_completion_cycle
                (exec (run [Enter "0:0:1"; Call CustomButton; Call StartButton]) init)
                1 ltac:(lia)) as (_ & _ & _ & _ & _ & H).
    destruct (H [Enter "0:0:1"; Call CustomButton; Call StartButton]
                eq_refl eq_refl eq_refl) as (_ & _ & H3 & _).
    apply H3. discriminate.
Defined.

(** ** The countdown never goes below zero *)




(** ** Reset *)

(** C3. [reset_timer] from any state gives mode Pomodoro, [time_left] equal
    to [pomodoro_time], count 0, not running and not paused; from a
    reachable state [pomodoro_time] is 1500 and the result is the initial
    state with the entry text kept. *)
Theorem reset_restores_initial_state (s : Timer) :
  let r := exec reset_timer s in
  current_mode r = Pomodoro
  /\ time_left r = pomodoro_time s
  /\ pomodoro_count r = 0
  /\ timer_running r = false
  /\ timer_paused r = false
  /\ (reachable s ->
      time_left r = 1500 /\ r = exec (enter (custom_entry (ui s))) init).
Proof.
  cbv zeta. rewrite exec_reset_timer. cbn.
  repeat (split; [reflexivity|]).
  intros H. destruct (reachable_steady s H) as ((Hp & Hs & Hl) & _).
  rewrite Hp, Hs, Hl. split; reflexivity.
Qed.

(** Witness for C3: reset of a started and paused timer. *)
Lemma reset_restores_initial_state_witness :
  exec reset_timer (exec pause_timer (exec start_timer init)) = init.
Proof.
  apply (reset_restores_initial_state (exec pause_timer (exec start_timer init))).
  apply (reachable_op _ (Call PauseButton)).
  apply (reachable_op _ (Call StartButton)).
  apply reachable_init.
Defined.

(** ** Start *)

(** C7. [start_timer] twice gives the same state as once and the second
    call starts no thread; on a running timer (paused or not) it changes
    nothing and starts no thread; on an idle timer it sets [timer_running]
    and starts one thread, leaving mode, [time_left], [timer_paused] and the
    count as they were. *)
Theorem start_idempotent (s : Timer) :
  exec start_timer (exec start_timer s) = exec start_timer s
  /\ effects start_timer (exec start_timer s) = []
  /\ (timer_running s = true ->
      exec start_timer s = s /\ effects start_timer s = [])
  /\ (timer_running s = false ->
      let s' := exec start_timer s in
      timer_running s' = true
      /\ current_mode s' = current_mode s
      /\ time_left s' = time_left s
      /\ timer_paused s' = timer_paused s
      /\ pomodoro_count s' = pomodoro_count s
      /\ effects start_timer s = [SpawnRunTimer]).
Proof.
  rewrite !effects_start_timer, !exec_start_timer.
  destruct (timer_running s) eqn:Hr.
  - rewrite Hr. repeat split; try reflexivity; discriminate.
  - cbn. repeat split; try reflexivity; discriminate.
Qed.

(** Witness for C7: starting the initial timer, and starting it again. *)
Lemma start_idempotent_witness :
  timer_running (exec start_timer init) = true
  /\ exec start_timer (exec start_timer init) = exec start_timer init.
Proof.
  split.
  - apply (proj2 (proj2 (proj2 (start_idempotent init)))). reflexivity.
  - apply (proj1 (proj2 (proj2 (start_idempotent (exec start_timer init))))). reflexivity.
Defined.

(** ** Pause *)

Lemma exec_press b s :
  exec (press b) s
  = if is_normal (button_state b (ui s)) then exec (command b) s else s.
Proof.
  unfold press, exec, bind, get.
  destruct (is_normal (button_state b (ui s))); [|reflexivity].
  destruct (command b s) as [[u s1] e1]. reflexivity.
Qed.

Lemma effects_press b s :
  effects (press b) s
  = if is_normal (button_state b (ui s)) then effects (command b) s else [].
Proof.
  unfold press, effects, bind, get.
  destruct (is_normal (button_state b (ui s))); [|reflexivity].
  destruct (command b s) as [[u s1] e1]. reflexivity.
Qed.

Lemma gated_init : gated init.
Proof. intros _. split; reflexivity. Qed.

Lemma gated_press b s : gated s -> gated (exec (press b) s).
Proof.
  intros G. rewrite exec_press.
  destruct (is_normal (button_state b (ui s))) eqn:E; [|exact G].
  destruct b; cbn [command button_state] in *.
  - rewrite exec_start_timer. destruct (timer_running s) eqn:Hr; [exact G|].
    intros H. cbn in H. discriminate.
  - rewrite exec_pause_timer.
    destruct (timer_running s) eqn:Hr.
    + destruct (timer_paused s); intros H; cbn in H; congruence.
    + destruct (G Hr) as (Hd & _). rewrite Hd in E. discriminate.
  - rewrite exec_reset_timer. intros _. split; reflexivity.
  - rewrite exec_set_custom_time.
    destruct (custom_total _) as [e|t]; [exact G|].
    destruct (t >? 0); exact G.
Qed.

Lemma gated_tick s : gated s -> gated (exec tick s).
Proof.
  intros G. rewrite exec_tick.
  assert (Hfin : forall u, gated u -> gated (exec timer_finished u)).
  { intros u Gu Hr. pose proof (timer_finished_keeps u) as (K1 & K2 & _).
    rewrite K1 in Hr. destruct (Gu Hr) as (Hd & Hp). rewrite K2. split; [|assumption].
    rewrite <- Hd.
    destruct u as [pt sb lb tl run pau cnt mode w].
    destruct mode; unfold_methods; cbn; try reflexivity.
    destruct ((cnt + 1) mod 4 =? 0); reflexivity. }
  assert (Hbody : gated (exec loop_body s)).
  { rewrite exec_loop_body. destruct (timer_paused s) eqn:Hp; [exact G|].
    intros Hr. cbn in Hr. destruct (G Hr) as (Hd & _). split; assumption. }
  destruct (inner_test s).
  - cbv zeta. destruct (inner_test (exec loop_body s)); [assumption|].
    destruct (timer_running (exec loop_body s)); [apply Hfin|]; assumption.
  - destruct (timer_running s); [apply Hfin|]; assumption.
Qed.

Lemma ui_reachable_gated s : ui_reachable s -> gated s.
Proof.
  induction 1 as [|s o _ IH]; [exact gated_init|].
  destruct o as [b|text|]; cbn [run_ui].
  - apply gated_press; assumption.
  - exact IH.
  - apply gated_tick; assumption.
Qed.

(** Going through the buttons reaches no state that direct calls do not. *)
Lemma ui_reachable_reachable s : ui_reachable s -> reachable s.
Proof.
  induction 1 as [|s o _ IH]; [constructor|].
  destruct o as [b|text|].
  - cbn [run_ui]. rewrite exec_press.
    destruct (is_normal (button_state b (ui s))).
    + apply (reachable_op s (Call b) IH).
    + exact IH.
  - apply (reachable_op s (Enter text) IH).
  - apply (reachable_op s Tick IH).
Qed.

(** C5, as stated, fails for the method itself: [pause_timer] called on the
    idle initial timer sets [timer_paused] and changes the caption of the
    pause button, which gives a state that is paused and not running. *)
Lemma pause_idle_counterexample :
  timer_running init = false
  /\ reachable (exec pause_timer init)
  /\ timer_paused (exec pause_timer init) = true
  /\ timer_running (exec pause_timer init) = false
  /\ exec pause_timer init <> init.
Proof.
  split; [reflexivity|]. split.
  - apply (reachable_op init (Call PauseButton)). constructor.
  - cbn. repeat split; discriminate.
Qed.

(** C5, amended.  In every state reached through the buttons of the
    interface, the entry and ticks, [timer_paused] implies [timer_running];
    in such a state with [timer_running] false the pause button is disabled,
    so that a click on it changes no field and makes no outside call. *)
Theorem paused_implies_running_through_ui (s : Timer) :
  ui_reachable s ->
  (timer_paused s = true -> timer_running s = true)
  /\ (timer_running s = false ->
      pause_button (ui s) = Disabled
      /\ exec (press PauseButton) s = s
      /\ effects (press PauseButton) s = []).
Proof.
  intros H. pose proof (ui_reachable_gated s H) as G. split.
  - intros Hp. destruct (timer_running s) eqn:Hr; [reflexivity|].
    destruct (G Hr) as (_ & Hp'). congruence.
  - intros Hr. destruct (G Hr) as (Hd & _). split; [assumption|].
    rewrite exec_press, effects_press. cbn [button_state]. rewrite Hd.
    split; reflexivity.
Qed.

(** Witness for the amended C5: a click on the pause button after a reset. *)
Lemma paused_implies_running_through_ui_witness :
  exec (press PauseButton)
    (exec (run_ui (Call ResetButton)) (exec (run_ui (Call StartButton)) init))
  = exec (run_ui (Call ResetButton)) (exec (run_ui (Call StartButton)) init).
Proof.
  apply (paused_implies_running_through_ui
           (exec (run_ui (Call ResetButton)) (exec (run_ui (Call StartButton)) init))).
  - apply ui_reachable_op. apply ui_reachable_op. apply ui_reachable_init.
  - reflexivity.
Defined.




(** ** Text: splitting, reading and printing integers *)

Lemma split_free sep x : free_of sep x = true -> PyStr.split sep x = [x].
Proof.
  induction x as [|c r IH]; [reflexivity|].
  cbn. destruct (Ascii.eqb c sep); cbn; [discriminate|].
  intros H. rewrite (IH H). reflexivity.
Qed.

Lemma split_app_sep sep x y :
  free_of sep x = true ->
  PyStr.split sep (x ++ String sep y) = x :: PyStr.split sep y.
Proof.
  induction x as [|c r IH]; cbn.
  - intros _. rewrite Ascii.eqb_refl. reflexivity.
  - destruct (Ascii.eqb c sep); cbn; [discriminate|].
    intros H. rewrite (IH H). reflexivity.
Qed.

Lemma digit_val_range c d : PyStr.digit_val c = Some d -> 0 <= d <= 9.
Proof.
  unfold PyStr.digit_val.
  destruct (N.leb_spec 48 (N_of_ascii c)); cbn; [|discriminate].
  destruct (N.leb_spec (N_of_ascii c) 57); cbn; [|discriminate].
  intros [= <-]. lia.
Qed.

Lemma digit_not_space c d : PyStr.digit_val c = Some d -> PyStr.is_space c = false.
Proof.
  unfold PyStr.digit_val, PyStr.is_space.
  destruct (N.leb_spec 48 (N_of_ascii c)); cbn; [|discriminate].
  destruct (N.leb_spec (N_of_ascii c) 57); cbn; [|discriminate].
  intros _.
  destruct (N.leb_spec (N_of_ascii c) 13); [lia|].
  rewrite andb_false_r. cbn.
  destruct (N.eqb_spec (N_of_ascii c) 32); [lia|].
  destruct (N.eqb_spec (N_of_ascii c) 133); [lia|].
  destruct (N.eqb_spec (N_of_ascii c) 160); [lia|]. reflexivity.
Qed.

Lemma digit_not_char c d (x : ascii) :
  PyStr.digit_val x = None -> PyStr.digit_val c = Some d -> Ascii.eqb c x = false.
Proof.
  intros Hx Hc. destruct (Ascii.eqb_spec c x) as [->|]; [congruence|reflexivity].
Qed.

Lemma digit_val_char d : 0 <= d <= 9 -> PyStr.digit_val (PyStr.digit_char d) = Some d.
Proof.
  intros H.
  assert (E : d = 0 \/ d = 1 \/ d = 2 \/ d = 3 \/ d = 4 \/ d = 5 \/ d = 6 \/ d = 7
              \/ d = 8 \/ d = 9) by lia.
  repeat (destruct E as [->|E]; [reflexivity|]). subst. reflexivity.
Qed.

Lemma digits_only_free_colon s : digits_only s = true -> free_of ":" s = true.
Proof.
  induction s as [|c r IH]; [reflexivity|]. cbn.
  destruct (PyStr.digit_val c) as [d|] eqn:E; [|discriminate].
  intros H. rewrite (digit_not_char c d ":" eq_refl E). cbn. apply IH, H.
Qed.

Lemma digits_only_app x y :
  digits_only x = true -> digits_only y = true -> digits_only (x ++ y) = true.
Proof.
  induction x as [|c r IH]; cbn; [auto|].
  destruct (PyStr.digit_val c); [auto|discriminate].
Qed.

Lemma horner_app x y a :
  digits_only x = true -> horner a (x ++ y) = horner (horner a x) y.
Proof.
  revert a. induction x as [|c r IH]; intros a; cbn; [reflexivity|].
  destruct (PyStr.digit_val c); [apply IH|discriminate].
Qed.

Lemma scan_digits_digits s acc :
  digits_only s = true -> PyStr.scan_digits acc s = Some (horner acc s, EmptyString).
Proof.
  revert acc. induction s as [|c r IH]; intros acc; cbn; [reflexivity|].
  destruct (PyStr.digit_val c); [apply IH|discriminate].
Qed.

(** [int] reads a non-empty run of digits as the number it writes. *)
Lemma int_digits s :
  s <> EmptyString -> digits_only s = true -> PyStr.int s = Some (horner 0 s).
Proof.
  destruct s as [|c r]; [congruence|]. intros _. cbn.
  destruct (PyStr.digit_val c) as [d|] eqn:E; [|discriminate].
  intros H. unfold PyStr.int. cbn [PyStr.lstrip].
  rewrite (digit_not_space c d E).
  rewrite (digit_not_char c d "-" eq_refl E), (digit_not_char c d "+" eq_refl E).
  unfold PyStr.unsigned_literal. rewrite E, (scan_digits_digits r d H). reflexivity.
Qed.

Lemma string_app_assoc (x y z : string) : ((x ++ y) ++ z = x ++ (y ++ z))%string.
Proof. induction x as [|c r IH]; cbn; [reflexivity|]. rewrite IH. reflexivity. Qed.

Lemma dec_digits_aux_app fuel n acc :
  PyStr.dec_digits_aux fuel n acc = PyStr.dec_digits_aux fuel n EmptyString ++ acc.
Proof.
  revert n acc. induction fuel as [|f IH]; intros n acc; cbn; [reflexivity|].
  destruct (n / 10 =? 0); [reflexivity|].
  rewrite (IH (n / 10) (String _ acc)), (IH (n / 10) (String _ EmptyString)).
  rewrite string_app_assoc. reflexivity.
Qed.

Lemma dec_digits_aux_spec fuel n :
  0 <= n < 10 ^ Z.of_nat fuel ->
  digits_only (PyStr.dec_digits_aux fuel n EmptyString) = true
  /\ horner 0 (PyStr.dec_digits_aux fuel n EmptyString) = n.
Proof.
  revert n. induction fuel as [|f IH]; intros n Hn.
  - cbn in *. split; [reflexivity|lia].
  - rewrite Nat2Z.inj_succ, Z.pow_succ_r in Hn by lia.
    assert (Hd : 0 <= n mod 10 <= 9) by (pose proof (Z.mod_pos_bound n 10); lia).
    cbn [PyStr.dec_digits_aux].
    destruct (Z.eqb_spec (n / 10) 0) as [E|E].
    + cbn. rewrite (digit_val_char _ Hd). split; [reflexivity|].
      pose proof (Z.div_mod n 10 ltac:(lia)). lia.
    + rewrite dec_digits_aux_app.
      assert (Hq : 0 <= n / 10 < 10 ^ Z.of_nat f).
      { split; [apply Z.div_pos; lia|]. apply Z.div_lt_upper_bound; lia. }
      destruct (IH (n / 10) Hq) as (D & V).
      split.
      * apply digits_only_app; [assumption|]. cbn. rewrite (digit_val_char _ Hd). reflexivity.
      * rewrite (horner_app _ _ _ D), V. cbn. rewrite (digit_val_char _ Hd).
        pose proof (Z.div_mod n 10 ltac:(lia)). lia.
Qed.

Lemma dec_digits_fuel n : 0 <= n -> n < 10 ^ Z.of_nat (S (Z.to_nat (Z.log2 n))).
Proof.
  intros Hn. rewrite Nat2Z.inj_succ, Z2Nat.id by apply Z.log2_nonneg.
  destruct (Z.eq_dec n 0) as [->|Hz]; [reflexivity|].
  pose proof (Z.log2_spec n ltac:(lia)) as (_ & Hu).
  pose proof (Z.log2_nonneg n).
  assert (2 ^ Z.succ (Z.log2 n) <= 10 ^ Z.succ (Z.log2 n))
    by (apply Z.pow_le_mono_l; lia).
  lia.
Qed.

Lemma dec_digits_spec n :
  0 <= n ->
  PyStr.dec_digits n <> EmptyString
  /\ digits_only (PyStr.dec_digits n) = true
  /\ horner 0 (PyStr.dec_digits n) = n.
Proof.
  intros Hn. split.
  - unfold PyStr.dec_digits. cbn [PyStr.dec_digits_aux].
    destruct (n / 10 =? 0); [discriminate|].
    rewrite dec_digits_aux_app.
    destruct (PyStr.dec_digits_aux _ _ _); discriminate.
  - apply dec_digits_aux_spec. split; [assumption|]. apply dec_digits_fuel, Hn.
Qed.

Lemma format_02d_spec n :
  0 <= n ->
  PyStr.format_02d n <> EmptyString
  /\ digits_only (PyStr.format_02d n) = true
  /\ horner 0 (PyStr.format_02d n) = n.
Proof.
  intros Hn. destruct (dec_digits_spec n Hn) as (N & D & V).
  unfold PyStr.format_02d. destruct (Z.ltb_spec n 0); [lia|].
  destruct (String.length (PyStr.dec_digits n) <? 2)%nat.
  - split; [discriminate|]. cbn. split; assumption.
  - repeat split; assumption.
Qed.

(** Reading back what [format_02d] prints. *)
Lemma int_format_02d n : 0 <= n -> PyStr.int (PyStr.format_02d n) = Some n.
Proof.
  intros Hn. destruct (format_02d_spec n Hn) as (N & D & V).
  rewrite (int_digits _ N D), V. reflexivity.
Qed.

Lemma split_time_text a b c :
  digits_only a = true -> digits_only b = true -> digits_only c = true ->
  PyStr.split ":" (a ++ ":" ++ b ++ ":" ++ c) = [a; b; c].
Proof.
  intros Ha Hb Hc.
  change (a ++ ":" ++ b ++ ":" ++ c)%string with (a ++ String ":" (b ++ String ":" c))%string.
  rewrite split_app_sep by (apply digits_only_free_colon, Ha).
  rewrite split_app_sep by (apply digits_only_free_colon, Hb).
  rewrite split_free by (apply digits_only_free_colon, Hc).
  reflexivity.
Qed.

(** The decomposition made by [update_time_display]. *)
Lemma display_decomposition r :
  0 <= r ->
  let hours := r / 3600 in
  let mins := (r mod 3600) / 60 in
  let secs := (r mod 3600) mod 60 in
  0 <= hours /\ 0 <= mins < 60 /\ 0 <= secs < 60
  /\ secs = r mod 60
  /\ hours * 3600 + mins * 60 + secs = r.
Proof.
  intros Hr. cbv zeta.
  pose proof (Z.div_mod r 3600 ltac:(lia)) as E1.
  pose proof (Z.mod_pos_bound r 3600 ltac:(lia)) as B1.
  pose proof (Z.div_mod (r mod 3600) 60 ltac:(lia)) as E2.
  pose proof (Z.mod_pos_bound (r mod 3600) 60 ltac:(lia)) as B2.
  assert (0 <= r / 3600) by (apply Z.div_pos; lia).
  assert (0 <= (r mod 3600) / 60 < 60).
  { split; [apply Z.div_pos; lia|]. apply Z.div_lt_upper_bound; lia. }
  assert ((r mod 3600) mod 60 = r mod 60).
  { apply (Z.mod_unique r 60 (r / 3600 * 60 + (r mod 3600) / 60)); lia. }
  repeat split; lia.
Qed.

Lemma custom_total_time_text r : 0 <= r -> custom_total (time_text r) = inr r.
Proof.
  intros Hr. destruct (display_decomposition r Hr) as (Hh & Hm & Hs & _ & E).
  unfold custom_total, time_text. cbv zeta.
  destruct (format_02d_spec _ Hh) as (_ & Dh & _).
  destruct (format_02d_spec _ (proj1 Hm)) as (_ & Dm & _).
  destruct (format_02d_spec _ (proj1 Hs)) as (_ & Ds & _).
  rewrite (split_time_text _ _ _ Dh Dm Ds).
  rewrite !int_format_02d by lia. rewrite E. reflexivity.
Qed.

(** ** Custom duration *)

Lemma exec_set_custom_duration text s :
  exec (set_custom_duration text) s = exec set_custom_time (exec (enter text) s).
Proof. unfold set_custom_duration. rewrite exec_bind. reflexivity. Qed.







(** The keys [10-100] typed in the entry are laid out by
    [format_custom_time] as [10:-1:00]. *)
Example typed_negative_minutes :
  custom_entry (ui (exec format_custom_time (exec (enter "10-100") init))) = "10:-1:00".
Proof. reflexivity. Qed.




(** ** Display and entry agree *)



(** ** The countdown thread, statement by statement *)

Lemma thread_step_outer s :
  thread_step OuterTest s = (if timer_running s then InnerTest else Exited, s, []).
Proof. reflexivity. Qed.

Lemma thread_step_inner s :
  thread_step InnerTest s = (if inner_test s then PauseTest else FinishTest, s, []).
Proof. reflexivity. Qed.

Lemma thread_step_pause s :
  thread_step PauseTest s
  = if timer_paused s then (Sleep01, s, [])
    else (Sleep1, exec update_time_display s, []).
Proof.
  unfold thread_step, bind, get, ret. cbn. destruct (timer_paused s); reflexivity.
Qed.

Lemma thread_step_sleep1 s : thread_step Sleep1 s = (InnerTest, exec decrement s, []).
Proof. reflexivity. Qed.

Lemma thread_step_sleep01 s : thread_step Sleep01 s = (InnerTest, s, []).
Proof. reflexivity. Qed.

Lemma thread_step_finish s :
  thread_step FinishTest s
  = if timer_running s then (OuterTest, exec timer_finished s, effects timer_finished s)
    else (OuterTest, s, []).
Proof.
  unfold thread_step, bind, get, ret, exec, effects. cbn -[timer_finished].
  destruct (timer_running s); [|reflexivity].
  destruct (timer_finished s) as [[u s2] e2]. cbn. rewrite app_nil_r. reflexivity.
Qed.

Lemma thread_run_step n pc s pc' s' e :
  thread_step pc s = (pc', s', e) ->
  thread_run (S n) pc s
  = (fst (fst (thread_run n pc' s')), snd (fst (thread_run n pc' s')),
     (e ++ snd (thread_run n pc' s'))%list).
Proof.
  intros H. cbn [thread_run]. unfold bind. rewrite H.
  destruct (thread_run n pc' s') as [[p t] e']. reflexivity.
Qed.

(** [tick] is the thread run from the inner test, without interruption,
    until it is back at a loop test. *)
Lemma tick_is_thread_run s :
  timer_running s = true ->
  exists n pc,
    (pc = InnerTest \/ pc = OuterTest)
    /\ thread_run n InnerTest s = (pc, exec tick s, effects tick s).
Proof.
  intros Hr. rewrite exec_tick, effects_tick.
  destruct (inner_test s) eqn:E1.
  - cbv zeta. rewrite exec_loop_body.
    destruct (timer_paused s) eqn:Hp.
    + rewrite E1. exists 3%nat, InnerTest. split; [left; reflexivity|].
      rewrite (thread_run_step _ _ _ PauseTest s []) by (rewrite thread_step_inner, E1; reflexivity).
      rewrite (thread_run_step _ _ _ Sleep01 s []) by (rewrite thread_step_pause, Hp; reflexivity).
      rewrite (thread_run_step _ _ _ InnerTest s []) by apply thread_step_sleep01.
      reflexivity.
    + set (s1 := set_time_left (time_left s - 1)
                   (set_ui (with_time_label (time_text (time_left s)) (ui s)) s)).
      assert (Hs1 : exec decrement (exec update_time_display s) = s1) by reflexivity.
      destruct (inner_test s1) eqn:E2.
      * exists 3%nat, InnerTest. split; [left; reflexivity|].
        rewrite (thread_run_step _ _ _ PauseTest s []) by (rewrite thread_step_inner, E1; reflexivity).
        rewrite (thread_run_step _ _ _ Sleep1 (exec update_time_display s) [])
          by (rewrite thread_step_pause, Hp; reflexivity).
        rewrite (thread_run_step _ _ _ InnerTest s1 []) by apply thread_step_sleep1.
        reflexivity.
      * assert (Hr1 : timer_running s1 = true) by exact Hr.
        rewrite Hr1.
        exists 5%nat, OuterTest. split; [right; reflexivity|].
        rewrite (thread_run_step _ _ _ PauseTest s []) by (rewrite thread_step_inner, E1; reflexivity).
        rewrite (thread_run_step _ _ _ Sleep1 (exec update_time_display s) [])
          by (rewrite thread_step_pause, Hp; reflexivity).
        rewrite (thread_run_step _ _ _ InnerTest s1 []) by apply thread_step_sleep1.
        rewrite (thread_run_step _ _ _ FinishTest s1 []) by (rewrite thread_step_inner, E2; reflexivity).
        rewrite (thread_run_step _ _ _ OuterTest (exec timer_finished s1)
                   (effects timer_finished s1))
          by (rewrite thread_step_finish, Hr1; reflexivity).
        cbn [thread_run]. unfold ret. cbn [fst snd app].
        rewrite app_nil_r. reflexivity.
  - rewrite Hr. exists 2%nat, OuterTest. split; [right; reflexivity|].
    rewrite (thread_run_step _ _ _ FinishTest s []) by (rewrite thread_step_inner, E1; reflexivity).
    rewrite (thread_run_step _ _ _ OuterTest (exec timer_finished s) (effects timer_finished s))
      by (rewrite thread_step_finish, Hr; reflexivity).
    cbn [thread_run]. unfold ret. cbn [fst snd app].
    rewrite app_nil_r. reflexivity.
Qed.

(** ** A tick pending across a reset *)

(** C9, evaluated on the code.  The timer is started and its thread reaches
    [time.sleep(1)].  A click on Reset during that sleep returns with the
    initial state, but the thread is still inside the sleep: when it wakes
    it executes line 192 and takes [time_left] from 1500 to 1499 on a timer
    that is not running.  If Start is clicked before the thread wakes, the
    old thread finds [timer_running] true again and keeps counting next to
    the new one. *)
Theorem stale_tick_after_reset :
  let before := world_run [Press StartButton; Sched 0%nat; Sched 0%nat; Sched 0%nat] init_world in
  let after_reset := world_step (Press ResetButton) before in
  let later := world_step (Sched 0%nat) after_reset in
  let restarted :=
    world_run [Press StartButton; Sched 0%nat; Sched 0%nat; Sched 1%nat; Sched 1%nat; Sched 1%nat; Sched 0%nat]
      after_reset in
  threads before = [Sleep1]
  /\ timer after_reset = init
  /\ threads after_reset = [Sleep1]
  /\ timer_running (timer later) = false
  /\ time_left (timer later) = 1499
  /\ pomodoro_time (timer later) = 1500
  /\ threads restarted = [Sleep1; Sleep1]
  /\ timer_running (timer restarted) = true
  /\ time_left (timer restarted) = 1499.
Proof. cbv zeta. repeat split; vm_compute; reflexivity. Qed.

(** The decrement of line 192 is tested against nothing once the sleep has
    begun: a pause that arrives during the sleep of a tick leaves that tick's
    decrement in place, and the thread only then starts to wait. *)
Lemma pause_during_sleep :
  let w := world_run [Press StartButton; Sched 0%nat; Sched 0%nat; Sched 0%nat; Press PauseButton;
                      Sched 0%nat; Sched 0%nat; Sched 0%nat]
             init_world in
  timer_paused (timer w) = true
  /\ time_left (timer w) = 1499
  /\ threads w = [Sleep01].
Proof. cbv zeta. repeat split; vm_compute; reflexivity. Qed.

(** ** One countdown thread under any interleaving *)

Lemma set_nth_length {A} (l : list A) k a :
  List.length (set_nth k a l) = List.length l.
Proof.
  revert k. induction l as [|h t IH]; intros k; [reflexivity|].
  destruct k; cbn; [reflexivity|]. rewrite IH. reflexivity.
Qed.

Lemma world_step_press b w :
  world_step (Press b) w
  = mkWorld (exec (press b) (timer w))
      (threads w ++ spawned (effects (press b) (timer w)))%list.
Proof. reflexivity. Qed.

Lemma world_step_threads_grow e w :
  (List.length (threads w) <= List.length (threads (world_step e w)))%nat.
Proof.
  destruct e as [b|text|i]; cbn.
  - rewrite List.length_app. lia.
  - lia.
  - destruct (nth_error (threads w) i) as [pc|]; cbn; [|lia].
    rewrite set_nth_length. lia.
Qed.

Lemma world_run_snoc es e w :
  world_run (es ++ [e]) w = world_step e (world_run es w).
Proof. unfold world_run. rewrite fold_left_app. reflexivity. Qed.

Lemma thread_safe_step e w :
  (List.length (threads (world_step e w)) <= 1)%nat ->
  thread_safe w -> thread_safe (world_step e w).
Proof.
  intros Hlen ((Hp & Hs & Hl) & H0 & Hpc).
  destruct e as [b|text|i].
  - (* a click *)
    rewrite world_step_press in *. cbn [timer threads] in *.
    rewrite List.length_app in Hlen.
    rewrite exec_press. rewrite effects_press in *.
    destruct (is_normal (button_state b (ui (timer w)))).
    2:{ cbn in *. rewrite app_nil_r. repeat split; assumption. }
    destruct b; cbn [command] in *.
    + rewrite exec_start_timer. rewrite effects_start_timer in *.
      destruct (timer_running (timer w)).
      * cbn. rewrite app_nil_r. repeat split; assumption.
      * cbn in *. repeat split; try assumption.
        intros pc Hth [->| ->].
        -- destruct (threads w); cbn in Hth; [congruence|].
           cbn in Hlen. lia.
        -- destruct (threads w); cbn in Hth; [congruence|].
           cbn in Hlen. lia.
    + rewrite exec_pause_timer.
      assert (E : spawned (effects pause_timer (timer w)) = []).
      { unfold pause_timer. unfold_monad. destruct (timer_paused (timer w)); reflexivity. }
      rewrite E, app_nil_r.
      destruct (timer_paused (timer w)); repeat split; assumption.
    + rewrite exec_reset_timer. unfold thread_safe, default_config. cbn.
      repeat split; try assumption; lia.
    + rewrite exec_set_custom_time. rewrite effects_set_custom_time.
      destruct (custom_total _) as [err|t]; cbn.
      * rewrite app_nil_r. repeat split; assumption.
      * destruct (Z.gtb_spec t 0); cbn; rewrite app_nil_r.
        -- unfold thread_safe, default_config. cbn. repeat split; try assumption; lia.
        -- repeat split; assumption.
  - (* text typed in the entry *)
    cbn. repeat split; assumption.
  - (* a step of the thread *)
    destruct w as [t th]. unfold world_step in *. cbn [timer threads] in *.
    destruct th as [|pc [|pc2 rest]].
    + destruct i; cbn; repeat split; assumption.
    + destruct i as [|i].
      2:{ destruct i; cbn; repeat split; assumption. }
      cbn [nth_error set_nth] in *.
      unfold thread_safe, default_config. cbn [timer threads].
      destruct pc.
      * rewrite thread_step_outer. cbn.
        repeat split; try assumption.
        intros pc [= <-] [E|E]; destruct (timer_running t); discriminate.
      * rewrite thread_step_inner. cbn.
        repeat split; try assumption.
        intros pc [= <-] [E|E].
        -- destruct (inner_test t) eqn:T; [|discriminate].
           apply inner_test_true in T. apply T.
        -- destruct (inner_test t); discriminate.
      * assert (Ht : 0 < time_left t) by (apply (Hpc PauseTest); auto).
        rewrite thread_step_pause.
        destruct (timer_paused t); cbn; repeat split; try assumption; try lia.
      * assert (Ht : 0 < time_left t) by (apply (Hpc Sleep1); auto).
        rewrite thread_step_sleep1. cbn.
        repeat split; try assumption; try lia.
        intros pc [= <-] [E|E]; discriminate.
      * rewrite thread_step_sleep01. cbn. repeat split; try assumption.
        intros pc [= <-] [E|E]; discriminate.
      * rewrite thread_step_finish.
        destruct (timer_running t); cbn [fst snd].
        -- pose proof (timer_finished_keeps t) as (_ & _ & K3 & K4 & K5).
           pose proof (timer_finished_time_left t) as Ht.
           rewrite K3, K4, K5, Ht.
           repeat split; try assumption.
           ++ destruct (current_mode _); cbn; lia.
           ++ intros pc [= <-] [E|E]; discriminate.
        -- repeat split; try assumption.
           intros pc [= <-] [E|E]; discriminate.
      * cbn. repeat split; assumption.
    + destruct (nth_error (pc :: pc2 :: rest) i); cbn [threads] in Hlen.
      * rewrite set_nth_length in Hlen. cbn in Hlen. lia.
      * cbn in Hlen. lia.
Qed.

(** X17. With a single countdown thread, the interface and the thread may
    interleave statement by statement in any way: [time_left] never goes
    below 0. *)
Lemma single_thread_nonnegative es :
  (List.length (threads (world_run es init_world)) <= 1)%nat ->
  0 <= time_left (timer (world_run es init_world)).
Proof.
  intros H.
  assert (S : thread_safe (world_run es init_world)); [|apply S].
  induction es as [|e es IH] using rev_ind.
  - unfold thread_safe, default_config. cbn. repeat split; try lia; discriminate.
  - rewrite world_run_snoc in *.
    apply thread_safe_step; [assumption|].
    apply IH. pose proof (world_step_threads_grow e (world_run es init_world)). lia.
Qed.

(** With two threads left sleeping by quick clicks on Start and Reset, the
    pending decrements are not stopped by anything: after a custom time of
    one second they take [time_left] to -1. *)
Lemma stale_threads_below_zero :
  let w :=
    world_run
      [Press StartButton; Sched 0%nat; Sched 0%nat; Sched 0%nat; Press ResetButton;
       Press StartButton; Sched 1%nat; Sched 1%nat; Sched 1%nat; Press ResetButton;
       Key "0:0:1"; Press CustomButton; Sched 0%nat; Sched 1%nat]
      init_world in
  time_left (timer w) = -1 /\ timer_running (timer w) = false.
Proof. cbv zeta. split; vm_compute; reflexivity. Qed.

(** ** The first cycle, run tick by tick *)

(** A started default timer after 1500 ticks: the first Pomodoro is over
    and a Short Break of 300 seconds has begun. *)
Example first_pomodoro_run :
  let s := exec (ticks 1500) (exec start_timer init) in
  current_mode s = ShortBreak /\ time_left s = 300 /\ pomodoro_count s = 1
  /\ timer_running s = true /\ time_label (ui s) = "00:05:00".
Proof. vm_compute. repeat split; reflexivity. Qed.

(** After three Pomodoros with their Short Breaks and a fourth Pomodoro,
    6900 ticks in all, the Long Break of 1800 seconds begins. *)
Example fourth_pomodoro_run :
  let s := exec (ticks (Z.to_nat 6900)) (exec start_timer init) in
  current_mode s = LongBreak /\ time_left s = 1800 /\ pomodoro_count s = 4
  /\ time_label (ui s) = "00:30:00".
Proof. vm_compute. repeat split; reflexivity. Qed.

(** * Further properties of the code *)

(** ** The entry is laid out by [format_custom_time] *)

Lemma remove_colons_free s : free_of ":" (remove_colons s) = true.
Proof.
  induction s as [|c r IH]; [reflexivity|]. cbn.
  destruct (Ascii.eqb c ":") eqn:E; [exact IH|]. cbn. rewrite E. exact IH.
Qed.

Lemma remove_colons_fixed s : free_of ":" s = true -> remove_colons s = s.
Proof.
  induction s as [|c r IH]; [reflexivity|]. cbn.
  destruct (Ascii.eqb c ":"); cbn; [discriminate|].
  intros H. rewrite (IH H). reflexivity.
Qed.

Lemma remove_insert_colons i s : remove_colons (insert_colons i s) = remove_colons s.
Proof.
  revert i. induction s as [|c r IH]; intros i; [reflexivity|].
  cbn [insert_colons]. destruct ((i =? 2) || (i =? 4))%nat; cbn; rewrite IH; reflexivity.
Qed.

Lemma insert_colons_late i s : (5 <= i)%nat -> insert_colons i s = s.
Proof.
  revert i. induction s as [|c r IH]; intros i Hi; [reflexivity|].
  cbn [insert_colons].
  destruct (Nat.eqb_spec i 2); [lia|]. destruct (Nat.eqb_spec i 4); [lia|].
  cbn. rewrite IH by lia. reflexivity.
Qed.

Lemma exec_format_custom_time s :
  exec format_custom_time s
  = set_ui (with_custom_entry
              (insert_colons 0 (remove_colons (custom_entry (ui s)))) (ui s)) s.
Proof. reflexivity. Qed.

(** X1. [format_custom_time] keeps the characters of the entry other than
    colons, in their order; it writes nothing but the entry and makes no
    outside call; run again on its own result it changes nothing. *)
Theorem format_custom_time_idempotent (s : Timer) :
  let s1 := exec format_custom_time s in
  remove_colons (custom_entry (ui s1)) = remove_colons (custom_entry (ui s))
  /\ s1 = exec (enter (custom_entry (ui s1))) s
  /\ effects format_custom_time s = []
  /\ exec format_custom_time s1 = s1.
Proof.
  cbv zeta. rewrite !exec_format_custom_time.
  assert (E : remove_colons (insert_colons 0 (remove_colons (custom_entry (ui s))))
              = remove_colons (custom_entry (ui s))).
  { rewrite remove_insert_colons. apply remove_colons_fixed, remove_colons_free. }
  split; [exact E|]. split; [reflexivity|]. split; [reflexivity|].
  cbn [ui set_ui custom_entry with_custom_entry]. rewrite E.
  destruct s as [pt sb lb tl run pau cnt mode w]. destruct w. reflexivity.
Qed.

(** The layout of a text without colons, by its length. *)
Lemma insert_colons_layout y :
  free_of ":" y = true ->
  (exists a, insert_colons 0 y = a /\ free_of ":" a = true /\ (String.length y <= 2)%nat)
  \/ (exists a b,
        insert_colons 0 y = (a ++ String ":" b)%string
        /\ free_of ":" a = true /\ free_of ":" b = true
        /\ (3 <= String.length y <= 4)%nat)
  \/ (exists a b c,
        insert_colons 0 y = (a ++ String ":" (b ++ String ":" c))%string
        /\ y = (a ++ b ++ c)%string
        /\ String.length a = 2%nat /\ String.length b = 2%nat /\ c <> EmptyString
        /\ free_of ":" a = true /\ free_of ":" b = true /\ free_of ":" c = true
        /\ (5 <= String.length y)%nat).
Proof.
  intros F.
  destruct y as [|c1 [|c2 [|c3 [|c4 [|c5 r]]]]].
  - left. exists EmptyString. cbn. repeat split; lia.
  - left. eexists. cbn in *. repeat split; [exact F|lia].
  - left. eexists. cbn in *. repeat split; [exact F|lia].
  - right; left. exists (String c1 (String c2 EmptyString)), (String c3 EmptyString).
    cbn in *.
    destruct (Ascii.eqb c1 ":"), (Ascii.eqb c2 ":"), (Ascii.eqb c3 ":");
      cbn in *; try discriminate. repeat split; lia.
  - right; left. exists (String c1 (String c2 EmptyString)), (String c3 (String c4 EmptyString)).
    cbn in *.
    destruct (Ascii.eqb c1 ":"), (Ascii.eqb c2 ":"), (Ascii.eqb c3 ":"), (Ascii.eqb c4 ":");
      cbn in *; try discriminate. repeat split; lia.
  - right; right.
    exists (String c1 (String c2 EmptyString)), (String c3 (String c4 EmptyString)), (String c5 r).
    cbn [insert_colons Nat.eqb orb append].
    rewrite (insert_colons_late 5 r) by lia.
    cbn in F |- *.
    destruct (Ascii.eqb c1 ":"), (Ascii.eqb c2 ":"), (Ascii.eqb c3 ":"), (Ascii.eqb c4 ":"),
      (Ascii.eqb c5 ":"); cbn in *; try discriminate.
    repeat split; try assumption; try discriminate; lia.
Qed.

Lemma custom_total_format_error text :
  custom_total text = inl InvalidTimeFormat <-> List.length (PyStr.split ":" text) <> 3%nat.
Proof.
  unfold custom_total.
  destruct (PyStr.split ":" text) as [|a [|b [|c [|d l]]]]; cbn;
    try (split; [intros _; lia | reflexivity]).
  destruct (PyStr.int a); [|split; [discriminate|lia]].
  destruct (PyStr.int b); [|split; [discriminate|lia]].
  destruct (PyStr.int c); split; try discriminate; lia.
Qed.

(** X2. After [format_custom_time] the entry has one piece when it holds at
    most 2 characters other than colons, two pieces for 3 or 4, and three
    pieces for 5 or more; so [set_custom_time] answers with the error
    Invalid time format exactly when fewer than 5 such characters were
    typed. *)
Theorem formatted_entry_pieces (s : Timer) :
  let typed := String.length (remove_colons (custom_entry (ui s))) in
  let s1 := exec format_custom_time s in
  List.length (PyStr.split ":" (custom_entry (ui s1)))
  = (if (typed <=? 2)%nat then 1%nat else if (typed <=? 4)%nat then 2%nat else 3%nat)
  /\ (effects set_custom_time s1 = [ShowError "Invalid Input" InvalidTimeFormat]
      <-> (typed < 5)%nat).
Proof.
  cbv zeta. rewrite exec_format_custom_time.
  cbn [ui set_ui custom_entry with_custom_entry].
  set (y := remove_colons (custom_entry (ui s))).
  assert (L : List.length (PyStr.split ":" (insert_colons 0 y))
              = (if (String.length y <=? 2)%nat then 1%nat
                 else if (String.length y <=? 4)%nat then 2%nat else 3%nat)).
  { destruct (insert_colons_layout y (remove_colons_free _))
      as [(a & -> & Fa & Hl) | [(a & b & -> & Fa & Fb & Hl)
                               | (a & b & c & -> & _ & _ & _ & _ & Fa & Fb & Fc & Hl)]].
    - rewrite (split_free _ _ Fa). destruct (Nat.leb_spec (String.length y) 2); [reflexivity|lia].
    - rewrite (split_app_sep _ _ _ Fa), (split_free _ _ Fb).
      destruct (Nat.leb_spec (String.length y) 2); [lia|].
      destruct (Nat.leb_spec (String.length y) 4); [reflexivity|lia].
    - rewrite (split_app_sep _ _ _ Fa), (split_app_sep _ _ _ Fb), (split_free _ _ Fc).
      destruct (Nat.leb_spec (String.length y) 2); [lia|].
      destruct (Nat.leb_spec (String.length y) 4); [lia|reflexivity]. }
  split; [exact L|].
  rewrite effects_set_custom_time. cbn [ui set_ui custom_entry with_custom_entry].
  pose proof (custom_total_format_error (insert_colons 0 y)) as Hfmt.
  rewrite L in Hfmt.
  assert (Hiff : (if (String.length y <=? 2)%nat then 1%nat
                  else if (String.length y <=? 4)%nat then 2%nat else 3%nat) <> 3%nat
                 <-> (String.length y < 5)%nat).
  { destruct (Nat.leb_spec (String.length y) 2); [lia|].
    destruct (Nat.leb_spec (String.length y) 4); lia. }
  rewrite <- Hiff, <- Hfmt.
  destruct (custom_total (insert_colons 0 y)) as [e|t].
  - split; [intros [= ->]; reflexivity | intros [= ->]; reflexivity].
  - split; [destruct (t >? 0); discriminate | discriminate].
Qed.






(** ** What the time label shows *)

(** X5. Two different non-negative times are never shown as the same
    text. *)
Theorem time_text_injective (r1 r2 : Z) :
  0 <= r1 -> 0 <= r2 -> r1 <> r2 -> time_text r1 <> time_text r2.
Proof.
  intros H1 H2 Hne E.
  pose proof (custom_total_time_text r1 H1) as T1.
  pose proof (custom_total_time_text r2 H2) as T2.
  rewrite E in T1. congruence.
Qed.

(** Witness for X5: 59 and 60 seconds. *)
Lemma time_text_injective_witness : time_text 59 <> time_text 60.
Proof. apply time_text_injective; lia. Defined.

Lemma string_length_app (x y : string) :
  String.length (x ++ y) = (String.length x + String.length y)%nat.
Proof. induction x as [|c r IH]; cbn; [reflexivity|]. rewrite IH. reflexivity. Qed.

Lemma format_02d_width n : 0 <= n < 100 -> String.length (PyStr.format_02d n) = 2%nat.
Proof.
  intros Hn.
  assert (A : forallb (fun k => Nat.eqb (String.length (PyStr.format_02d (Z.of_nat k))) 2)
                (seq 0 100) = true) by (vm_compute; reflexivity).
  rewrite forallb_forall in A.
  specialize (A (Z.to_nat n)). rewrite Z2Nat.id in A by lia.
  apply Nat.eqb_eq, A, in_seq. lia.
Qed.

Lemma format_02d_min_width n : 0 <= n -> (2 <= String.length (PyStr.format_02d n))%nat.
Proof.
  intros Hn. destruct (dec_digits_spec n Hn) as (N & _ & _).
  unfold PyStr.format_02d. destruct (Z.ltb_spec n 0); [lia|].
  destruct (Nat.ltb_spec (String.length (PyStr.dec_digits n)) 2); [|assumption].
  destruct (PyStr.dec_digits n); [congruence|]. cbn. lia.
Qed.

(** X6. For a time below 100 hours the label has the shape [HH:MM:SS]: two
    digits, a colon, two digits, a colon, two digits, 8 characters in all;
    for any non-negative time it has at least 8 characters, the hours taking
    the extra ones. *)
Theorem time_text_shape (r : Z) :
  0 <= r ->
  (8 <= String.length (time_text r))%nat
  /\ (r < 360000 ->
      String.length (time_text r) = 8%nat
      /\ exists hh mm ss,
           time_text r = (hh ++ ":" ++ mm ++ ":" ++ ss)%string
           /\ String.length hh = 2%nat /\ String.length mm = 2%nat
           /\ String.length ss = 2%nat
           /\ digits_only hh = true /\ digits_only mm = true /\ digits_only ss = true).
Proof.
  intros Hr. destruct (display_decomposition r Hr) as (Hh & Hm & Hs & _ & _).
  unfold time_text. cbv zeta.
  pose proof (format_02d_min_width _ Hh) as Wh.
  pose proof (format_02d_width (r mod 3600 / 60) ltac:(lia)) as Wm.
  pose proof (format_02d_width ((r mod 3600) mod 60) ltac:(lia)) as Ws.
  split.
  - rewrite !string_length_app. cbn [String.length]. lia.
  - intros Hlt.
    assert (Hh100 : r / 3600 < 100) by (apply Z.div_lt_upper_bound; lia).
    pose proof (format_02d_width (r / 3600) ltac:(lia)) as Wh2.
    split.
    + rewrite !string_length_app. cbn [String.length]. lia.
    + exists (PyStr.format_02d (r / 3600)), (PyStr.format_02d (r mod 3600 / 60)),
        (PyStr.format_02d ((r mod 3600) mod 60)).
      destruct (format_02d_spec _ Hh) as (_ & Dh & _).
      destruct (format_02d_spec _ (proj1 Hm)) as (_ & Dm & _).
      destruct (format_02d_spec _ (proj1 Hs)) as (_ & Ds & _).
      repeat split; assumption.
Qed.

(** Witness for X6: the last second before 100 hours. *)
Lemma time_text_shape_witness : String.length (time_text 359999) = 8%nat.
Proof.
  destruct (time_text_shape 359999 ltac:(lia)) as (_ & H).
  apply (H ltac:(lia)).
Defined.

(** ** The widgets follow the fields *)


(** What [timer_finished] and a tick leave alone among the widgets. *)
Lemma timer_finished_controls u :
  start_button (ui (exec timer_finished u)) = start_button (ui u)
  /\ pause_button (ui (exec timer_finished u)) = pause_button (ui u)
  /\ custom_button (ui (exec timer_finished u)) = custom_button (ui u)
  /\ pause_button_text (ui (exec timer_finished u)) = pause_button_text (ui u)
  /\ custom_entry (ui (exec timer_finished u)) = custom_entry (ui u).
Proof.
  destruct u as [pt sb lb tl run pau cnt mode w].
  destruct mode.
  - rewrite timer_finished_pomodoro by reflexivity. cbn. repeat split.
  - rewrite timer_finished_break by (cbn; congruence). cbn. repeat split.
  - rewrite timer_finished_break by (cbn; congruence). cbn. repeat split.
Qed.

Lemma tick_controls s :
  timer_running (exec tick s) = timer_running s
  /\ timer_paused (exec tick s) = timer_paused s
  /\ start_button (ui (exec tick s)) = start_button (ui s)
  /\ pause_button (ui (exec tick s)) = pause_button (ui s)
  /\ custom_button (ui (exec tick s)) = custom_button (ui s)
  /\ pause_button_text (ui (exec tick s)) = pause_button_text (ui s)
  /\ custom_entry (ui (exec tick s)) = custom_entry (ui s).
Proof.
  assert (B : timer_running (exec loop_body s) = timer_running s
              /\ timer_paused (exec loop_body s) = timer_paused s
              /\ start_button (ui (exec loop_body s)) = start_button (ui s)
              /\ pause_button (ui (exec loop_body s)) = pause_button (ui s)
              /\ custom_button (ui (exec loop_body s)) = custom_button (ui s)
              /\ pause_button_text (ui (exec loop_body s)) = pause_button_text (ui s)
              /\ custom_entry (ui (exec loop_body s)) = custom_entry (ui s)).
  { rewrite exec_loop_body. destruct (timer_paused s) eqn:E; cbn; rewrite ?E; repeat split. }
  assert (F : forall u,
              timer_running (exec timer_finished u) = timer_running u
              /\ timer_paused (exec timer_finished u) = timer_paused u
              /\ start_button (ui (exec timer_finished u)) = start_button (ui u)
              /\ pause_button (ui (exec timer_finished u)) = pause_button (ui u)
              /\ custom_button (ui (exec timer_finished u)) = custom_button (ui u)
              /\ pause_button_text (ui (exec timer_finished u)) = pause_button_text (ui u)
              /\ custom_entry (ui (exec timer_finished u)) = custom_entry (ui u)).
  { intros u. pose proof (timer_finished_keeps u) as (K1 & K2 & _).
    pose proof (timer_finished_controls u) as (C1 & C2 & C3 & C4 & C5).
    repeat split; assumption. }
  rewrite exec_tick.
  destruct (inner_test s).
  - cbv zeta. destruct (inner_test (exec loop_body s)); [exact B|].
    destruct (F (exec loop_body s)) as (F1 & F2 & F3 & F4 & F5 & F6 & F7).
    destruct B as (B1 & B2 & B3 & B4 & B5 & B6 & B7).
    destruct (timer_running (exec loop_body s)) eqn:E; repeat split; congruence.
  - destruct (F s) as (F1 & F2 & F3 & F4 & F5 & F6 & F7).
    destruct (timer_running s) eqn:E; repeat split; congruence.
Qed.




Lemma buttons_consistent_op s o :
  buttons_consistent s -> buttons_consistent (exec (run_op o) s).
Proof.
  intros (Hs & Hp & Hc). unfold buttons_consistent.
  destruct o as [b|text|]; cbn [run_op].
  - destruct b; cbn [command].
    + rewrite exec_start_timer. destruct (timer_running s) eqn:Hr.
      * rewrite Hr. repeat split; assumption.
      * cbn. repeat split.
    + rewrite exec_pause_timer. destruct (timer_paused s); cbn; repeat split; assumption.
    + rewrite exec_reset_timer. cbn. repeat split.
    + rewrite exec_set_custom_time.
      destruct (custom_total _) as [e|t]; [repeat split; assumption|].
      destruct (t >? 0); cbn; repeat split; assumption.
  - cbn. repeat split; assumption.
  - destruct (tick_controls s) as (T1 & _ & T3 & T4 & T5 & _).
    rewrite T1, T3, T4, T5. repeat split; assumption.
Qed.

(** X8. In every state reached by method calls and ticks, Start and Set
    Custom Time are enabled exactly while the timer is not running and Pause
    exactly while it is running.  So a click on Start or on Set Custom Time
    changes nothing while the timer runs, and a click on Pause changes
    nothing while it does not. *)
Theorem buttons_follow_running (s : Timer) :
  reachable s ->
  buttons_consistent s
  /\ (timer_running s = true ->
      exec (press StartButton) s = s /\ effects (press StartButton) s = []
      /\ exec (press CustomButton) s = s /\ effects (press CustomButton) s = [])
  /\ (timer_running s = false ->
      exec (press PauseButton) s = s /\ effects (press PauseButton) s = []).
Proof.
  intros H.
  assert (B : buttons_consistent s).
  { induction H as [|s o H IH].
    - repeat split.
    - apply buttons_consistent_op, IH. }
  split; [exact B|]. destruct B as (Hs & Hp & Hc).
  rewrite !exec_press, !effects_press. cbn [button_state].
  rewrite Hs, Hp, Hc.
  split; intros Hr; rewrite Hr; repeat split.
Qed.

(** Witness for X8: Set Custom Time clicked on a started timer. *)
Lemma buttons_follow_running_witness :
  exec (press CustomButton) (exec (set_custom_duration "00:00:05") (exec start_timer init))
  = exec (set_custom_duration "00:00:05") (exec start_timer init).
Proof.
  destruct (buttons_follow_running
              (exec (run [Call StartButton; Enter "00:00:05"; Call CustomButton]) init)
              (run_reachable _)) as (_ & H & _).
  apply (H eq_refl).
Defined.

(** X9. A custom time is not remembered: [set_custom_time] never writes the
    three configured durations, so in a reachable state they are still 1500,
    300 and 1800 after it; the next interval has its usual duration and a
    reset gives 1500 again. *)
Theorem custom_time_not_remembered (s : Timer) (text : string) :
  reachable s ->
  let s' := exec (set_custom_duration text) s in
  pomodoro_time s' = pomodoro_time s
  /\ short_break_time s' = short_break_time s
  /\ long_break_time s' = long_break_time s
  /\ default_config s'
  /\ time_left (exec reset_timer s') = 1500
  /\ time_left (exec timer_finished s')
     = match current_mode (exec timer_finished s') with
       | Pomodoro => 1500 | ShortBreak => 300 | LongBreak => 1800
       end.
Proof.
  intros H. cbv zeta.
  destruct (reachable_steady s H) as ((Hp & Hs & Hl) & _).
  assert (K : pomodoro_time (exec (set_custom_duration text) s) = pomodoro_time s
              /\ short_break_time (exec (set_custom_duration text) s) = short_break_time s
              /\ long_break_time (exec (set_custom_duration text) s) = long_break_time s).
  { rewrite exec_set_custom_duration, exec_set_custom_time.
    destruct (custom_total _) as [e|t]; [repeat split|].
    destruct (t >? 0); repeat split. }
  destruct K as (K1 & K2 & K3).
  split; [exact K1|]. split; [exact K2|]. split; [exact K3|].
  assert (D : default_config (exec (set_custom_duration text) s))
    by (unfold default_config; rewrite K1, K2, K3; repeat split; assumption).
  split; [exact D|]. destruct D as (D1 & D2 & D3).
  split.
  - rewrite exec_reset_timer. cbn. exact D1.
  - rewrite timer_finished_time_left.
    destruct (current_mode _); cbn; assumption.
Qed.

(** Witness for X9: ten minutes set on the initial timer, then a reset. *)
Lemma custom_time_not_remembered_witness :
  time_left (exec reset_timer (exec (set_custom_duration "00:10:00") init)) = 1500.
Proof.
  destruct (custom_time_not_remembered init "00:10:00" reachable_init)
    as (_ & _ & _ & _ & H & _).
  exact H.
Defined.

(** ** Counting down *)

Lemma exec_ticks_S k s : exec (ticks (S k)) s = exec (ticks k) (exec tick s).
Proof. cbn [ticks]. rewrite exec_bind. reflexivity. Qed.

Lemma effects_ticks_S k s :
  effects (ticks (S k)) s = (effects tick s ++ effects (ticks k) (exec tick s))%list.
Proof. cbn [ticks]. rewrite effects_bind. reflexivity. Qed.

Lemma exec_ticks_add a b s :
  exec (ticks (a + b)) s = exec (ticks b) (exec (ticks a) s).
Proof.
  revert s. induction a as [|a IH]; intros s; [reflexivity|].
  cbn [Nat.add]. rewrite !exec_ticks_S. apply IH.
Qed.

Lemma count_down_state (s : Timer) (k : nat) :
  timer_running s = true -> timer_paused s = false ->
  Z.of_nat k < time_left s ->
  effects (ticks k) s = []
  /\ exec (ticks k) s
     = match k with
       | O => s
       | S _ =>
           set_ui (with_time_label (time_text (time_left s - Z.of_nat k + 1)) (ui s))
             (set_time_left (time_left s - Z.of_nat k) s)
       end.
Proof.
  revert s. induction k as [|k IH]; intros s Hr Hp Hk; [split; reflexivity|].
  rewrite effects_ticks_S, exec_ticks_S.
  destruct (tick_counts_down s Hr Hp ltac:(lia)) as (E1 & E2).
  rewrite E1, E2.
  assert (Hs1 : exec decrement (exec update_time_display s)
                = set_ui (with_time_label (time_text (time_left s)) (ui s))
                    (set_time_left (time_left s - 1) s)) by reflexivity.
  rewrite Hs1.
  destruct (IH (set_ui (with_time_label (time_text (time_left s)) (ui s))
                  (set_time_left (time_left s - 1) s)) Hr Hp) as (I1 & I2).
  { cbn. lia. }
  rewrite I1, I2. split; [reflexivity|].
  destruct s as [pt sb lb tl run pau cnt mode w]. destruct w. cbn.
  destruct k as [|k].
  - cbn. replace (tl - 1 + 1) with tl by lia. reflexivity.
  - unfold set_ui, set_time_left, with_time_label. cbn.
    f_equal; [lia|]. f_equal. f_equal. lia.
Qed.

(** X10. Within an interval the timer counts seconds: in a running,
    unpaused timer, [k] ticks with [k < time_left] take exactly [k] from
    [time_left], make no outside call, and change nothing else but the time
    label, which shows the value before the last decrement. *)
Theorem ticks_count_down (s : Timer) (k : nat) :
  timer_running s = true -> timer_paused s = false ->
  Z.of_nat k < time_left s ->
  effects (ticks k) s = []
  /\ exec (ticks k) s
     = match k with
       | O => s
       | S _ =>
           set_ui (with_time_label (time_text (time_left s - Z.of_nat k + 1)) (ui s))
             (set_time_left (time_left s - Z.of_nat k) s)
       end.
Proof. apply count_down_state. Qed.

(** Witness for X10: a started timer after 90 ticks. *)
Lemma ticks_count_down_witness :
  time_left (exec (ticks 90) (exec start_timer init)) = 1500 - 90
  /\ time_label (ui (exec (ticks 90) (exec start_timer init))) = "00:23:31".
Proof.
  destruct (ticks_count_down (exec start_timer init) 90 eq_refl eq_refl ltac:(cbn; lia))
    as (_ & H).
  rewrite H. split; reflexivity.
Defined.

Lemma interval_end_state (s : Timer) (k : nat) :
  timer_running s = true -> timer_paused s = false ->
  0 < time_left s -> Z.of_nat k = time_left s ->
  effects (ticks (k - 1)) s = []
  /\ exec (ticks k) s
     = exec timer_finished
         (set_ui (with_time_label (time_text 1) (ui s)) (set_time_left 0 s)).
Proof.
  intros Hr Hp Ht Hk.
  destruct k as [|k]; [cbn in Hk; lia|].
  replace (S k - 1)%nat with k by lia.
  destruct (count_down_state s k Hr Hp ltac:(lia)) as (E1 & E2).
  split; [exact E1|].
  replace (S k) with (k + 1)%nat by lia.
  rewrite exec_ticks_add, E2, exec_ticks_S.
  change (exec (ticks 0) ?x) with x.
  destruct k as [|k].
  - destruct (tick_completes s Hr Hp ltac:(cbn in Hk; lia)) as (_ & -> & _).
    rewrite exec_loop_body, Hp.
    destruct s as [pt sb lb tl run pau cnt mode w]. cbn in *.
    replace tl with 1 by lia. reflexivity.
  - clear E1 E2.
    replace (time_left s - Z.of_nat (S k)) with 1 by lia.
    match goal with |- exec tick ?u = _ => set (s2 := u) end.
    destruct (tick_completes s2 Hr Hp eq_refl) as (_ & -> & _).
    rewrite exec_loop_body. change (timer_paused s2) with (timer_paused s). rewrite Hp.
    subst s2.
    destruct s as [pt sb lb tl run pau cnt mode w]. destruct w. reflexivity.
Qed.

(** X11. An interval lasts exactly as many ticks as [time_left] says: in a
    running, unpaused timer with [time_left = k > 0], the first [k - 1]
    ticks make no outside call and the [k]-th one runs [timer_finished],
    on the state with [time_left] at 0 and the label showing the last
    second. *)
Theorem interval_ends_on_time (s : Timer) (k : nat) :
  timer_running s = true -> timer_paused s = false ->
  0 < time_left s -> Z.of_nat k = time_left s ->
  effects (ticks (k - 1)) s = []
  /\ exec (ticks k) s
     = exec timer_finished
         (set_ui (with_time_label (time_text 1) (ui s)) (set_time_left 0 s)).
Proof. apply interval_end_state. Qed.

(** Witness for X11: the five seconds of a custom time. *)
Lemma interval_ends_on_time_witness :
  current_mode
    (exec (ticks 5) (exec start_timer (exec (set_custom_duration "00:00:05") init)))
  = ShortBreak.
Proof.
  destruct (interval_ends_on_time
              (exec start_timer (exec (set_custom_duration "00:00:05") init)) 5
              eq_refl eq_refl ltac:(cbn; lia) eq_refl) as (_ & H).
  rewrite H. reflexivity.
Defined.

(** ** The cycle of four Pomodoros *)

Lemma interval_step (s : Timer) (m : Mode) (c : Z) (k : nat) :
  at_interval s m c -> Z.of_nat k = duration s m ->
  let s' := exec (ticks k) s in
  default_config s' /\ timer_running s' = true /\ timer_paused s' = false
  /\ time_left s' = duration s' (current_mode s')
  /\ (m = Pomodoro ->
      pomodoro_count s' = c + 1
      /\ current_mode s' = (if (c + 1) mod 4 =? 0 then LongBreak else ShortBreak))
  /\ (m <> Pomodoro -> pomodoro_count s' = c /\ current_mode s' = Pomodoro).
Proof.
  intros ((Dp & Ds & Dl) & Hr & Hp & Hm & Ht & Hc) Hk. cbv zeta.
  assert (Hpos : 0 < time_left s).
  { rewrite Ht. destruct m; cbn; lia. }
  destruct (interval_end_state s k Hr Hp Hpos ltac:(congruence)) as (_ & ->).
  destruct s as [pt sb lb tl run pau cnt mode w]. cbn in *. subst.
  destruct m.
  - rewrite timer_finished_pomodoro by reflexivity. unfold default_config. cbn.
    destruct ((c + 1) mod 4 =? 0); cbn; repeat split; congruence.
  - rewrite timer_finished_break by (cbn; congruence). unfold default_config. cbn.
    repeat split; congruence.
  - rewrite timer_finished_break by (cbn; congruence). unfold default_config. cbn.
    repeat split; congruence.
Qed.

Lemma pomodoro_then_break s c :
  at_interval s Pomodoro c ->
  at_interval (exec (ticks (Z.to_nat 1500)) s)
    (if (c + 1) mod 4 =? 0 then LongBreak else ShortBreak) (c + 1).
Proof.
  intros H. pose proof H as ((Dp & _) & _).
  destruct (interval_step s Pomodoro c (Z.to_nat 1500) H) as (D & R & P & T & A & _).
  { cbn [duration]. rewrite Dp. reflexivity. }
  destruct (A eq_refl) as (A1 & A2).
  unfold at_interval. rewrite <- A2. repeat split; try assumption; apply D.
Qed.

Lemma break_then_pomodoro s m c :
  m <> Pomodoro -> at_interval s m c ->
  at_interval (exec (ticks (Z.to_nat (duration s m))) s) Pomodoro c.
Proof.
  intros Hm H. pose proof H as ((Dp & Ds & Dl) & _).
  destruct (interval_step s m c (Z.to_nat (duration s m)) H) as (D & R & P & T & _ & B).
  { apply Z2Nat.id. destruct m; cbn; lia. }
  destruct (B Hm) as (B1 & B2).
  unfold at_interval. rewrite <- B2. repeat split; try assumption; apply D.
Qed.

(** X12. The cycle: from the start of a Pomodoro with a count that is a
    multiple of 4, in a running, unpaused timer with the default durations,
    three Pomodoros each followed by a Short Break and a fourth Pomodoro,
    6900 ticks in all, lead to the start of a Long Break, and its 1800 ticks
    lead to the start of the next Pomodoro with the count raised by 4, where
    the cycle starts again. *)
Theorem cycle_of_four (s : Timer) (c : Z) :
  at_interval s Pomodoro c -> c mod 4 = 0 ->
  let work := Z.to_nat 1500 in
  let short := Z.to_nat 300 in
  let long := Z.to_nat 1800 in
  at_interval
    (exec (ticks (work + short + work + short + work + short + work)) s)
    LongBreak (c + 4)
  /\ at_interval
       (exec (ticks (work + short + work + short + work + short + work + long)) s)
       Pomodoro (c + 4)
  /\ (c + 4) mod 4 = 0.
Proof.
  intros H0 Hc. cbv zeta.
  assert (M1 : ((c + 1) mod 4 =? 0) = false)
    by (apply Z.eqb_neq; Z.to_euclidean_division_equations; lia).
  assert (M2 : ((c + 1 + 1) mod 4 =? 0) = false)
    by (apply Z.eqb_neq; Z.to_euclidean_division_equations; lia).
  assert (M3 : ((c + 1 + 1 + 1) mod 4 =? 0) = false)
    by (apply Z.eqb_neq; Z.to_euclidean_division_equations; lia).
  assert (M4 : ((c + 1 + 1 + 1 + 1) mod 4 =? 0) = true)
    by (apply Z.eqb_eq; Z.to_euclidean_division_equations; lia).
  assert (S : forall u k, at_interval u ShortBreak k ->
                          at_interval (exec (ticks (Z.to_nat 300)) u) Pomodoro k).
  { intros u k Hu. pose proof Hu as ((_ & Ds & _) & _).
    pose proof (break_then_pomodoro u ShortBreak k ltac:(discriminate) Hu) as B.
    cbn [duration] in B. rewrite Ds in B. exact B. }
  assert (L : forall u k, at_interval u LongBreak k ->
                          at_interval (exec (ticks (Z.to_nat 1800)) u) Pomodoro k).
  { intros u k Hu. pose proof Hu as ((_ & _ & Dl) & _).
    pose proof (break_then_pomodoro u LongBreak k ltac:(discriminate) Hu) as B.
    cbn [duration] in B. rewrite Dl in B. exact B. }
  rewrite !exec_ticks_add.
  pose proof (pomodoro_then_break _ _ H0) as H1. rewrite M1 in H1.
  pose proof (S _ _ H1) as H2.
  pose proof (pomodoro_then_break _ _ H2) as H3. rewrite M2 in H3.
  pose proof (S _ _ H3) as H4.
  pose proof (pomodoro_then_break _ _ H4) as H5. rewrite M3 in H5.
  pose proof (S _ _ H5) as H6.
  pose proof (pomodoro_then_break _ _ H6) as H7. rewrite M4 in H7.
  pose proof (L _ _ H7) as H8.
  replace (c + 4) with (c + 1 + 1 + 1 + 1) by lia.
  split; [exact H7|]. split; [exact H8|].
  apply Z.eqb_eq, M4.
Qed.

(** Witness for X12: the first cycle of a started default timer. *)
Lemma cycle_of_four_witness :
  at_interval
    (exec (ticks (Z.to_nat 1500 + Z.to_nat 300 + Z.to_nat 1500 + Z.to_nat 300
                  + Z.to_nat 1500 + Z.to_nat 300 + Z.to_nat 1500 + Z.to_nat 1800))
       (exec start_timer init))
    Pomodoro (0 + 4).
Proof.
  assert (H : at_interval (exec start_timer init) Pomodoro 0).
  { unfold at_interval, default_config. cbn. repeat split. }
  apply (cycle_of_four (exec start_timer init) 0 H eq_refl).
Defined.

(** ** Outside calls *)

Lemma timer_finished_changes_mode u :
  current_mode (exec timer_finished u) <> current_mode u.
Proof.
  destruct u as [pt sb lb tl run pau cnt mode w]. destruct mode.
  - rewrite timer_finished_pomodoro by reflexivity. cbn.
    destruct ((cnt + 1) mod 4 =? 0); discriminate.
  - rewrite timer_finished_break by (cbn; congruence). cbn. discriminate.
  - rewrite timer_finished_break by (cbn; congruence). cbn. discriminate.
Qed.

(** X13. A tick makes outside calls exactly when it changes the mode: then
    it sends one notification titled Pomodoro Timer that names the new mode,
    followed by one alert sound; every other tick is silent. *)
Theorem tick_notifies_on_mode_change (s : Timer) :
  (current_mode (exec tick s) = current_mode s /\ effects tick s = [])
  \/ (current_mode (exec tick s) <> current_mode s
      /\ effects tick s
         = [Notify "Pomodoro Timer"
              (mode_text (current_mode (exec tick s)) ++ " started!");
            PlayAlert]).
Proof.
  destruct (tick_cases s) as [(u & Hu & _ & Hx & He) | (He & _ & Hm)].
  - right. rewrite He, Hx, timer_finished_effects. split; [|reflexivity].
    assert (Hmu : current_mode u = current_mode s).
    { destruct Hu as [->| ->]; [reflexivity|]. apply (loop_body_keeps s). }
    rewrite <- Hmu. apply timer_finished_changes_mode.
  - left. split; assumption.
Qed.

(** ** The countdown thread *)

Lemma thread_step_exited s : thread_step Exited s = (Exited, s, []).
Proof. reflexivity. Qed.


Lemma thread_step_controls (pc : Pc) (s : Timer) :
  let s' := exec (thread_step pc) s in
  timer_running s' = timer_running s
  /\ timer_paused s' = timer_paused s
  /\ pomodoro_time s' = pomodoro_time s
  /\ short_break_time s' = short_break_time s
  /\ long_break_time s' = long_break_time s
  /\ start_button (ui s') = start_button (ui s)
  /\ pause_button (ui s') = pause_button (ui s)
  /\ custom_button (ui s') = custom_button (ui s)
  /\ pause_button_text (ui s') = pause_button_text (ui s)
  /\ custom_entry (ui s') = custom_entry (ui s).
Proof.
  cbv zeta. unfold exec.
  destruct pc.
  - rewrite thread_step_outer. repeat split.
  - rewrite thread_step_inner. repeat split.
  - rewrite thread_step_pause. destruct (timer_paused s) eqn:E; cbn; rewrite ?E; repeat split.
  - rewrite thread_step_sleep1. repeat split.
  - rewrite thread_step_sleep01. repeat split.
  - rewrite thread_step_finish.
    pose proof (timer_finished_keeps s) as (K1 & K2 & K3 & K4 & K5).
    pose proof (timer_finished_controls s) as (C1 & C2 & C3 & C4 & C5).
    destruct (timer_running s) eqn:E; cbn [fst snd]; rewrite ?E; repeat split;
      congruence.
  - rewrite thread_step_exited. repeat split.
Qed.

(** X14. The thread writes neither flag, none of the durations, no button
    and not the entry: whatever statement it executes, [timer_running],
    [timer_paused], the three durations, the states of the buttons, the
    caption of the pause button and the entry are as before. *)
Theorem thread_step_leaves_controls (pc : Pc) (s : Timer) :
  let s' := exec (thread_step pc) s in
  timer_running s' = timer_running s
  /\ timer_paused s' = timer_paused s
  /\ pomodoro_time s' = pomodoro_time s
  /\ short_break_time s' = short_break_time s
  /\ long_break_time s' = long_break_time s
  /\ start_button (ui s') = start_button (ui s)
  /\ pause_button (ui s') = pause_button (ui s)
  /\ custom_button (ui s') = custom_button (ui s)
  /\ pause_button_text (ui s') = pause_button_text (ui s)
  /\ custom_entry (ui s') = custom_entry (ui s).
Proof. apply thread_step_controls. Qed.







(** ** Interleaved runs *)

Lemma nth_error_set_nth {A} (l : list A) i a b :
  nth_error l i = Some b -> nth_error (set_nth i a l) i = Some a.
Proof.
  revert i. induction l as [|h t IH]; intros i; [destruct i; discriminate|].
  destruct i; cbn; [reflexivity|]. apply IH.
Qed.

Lemma world_step_sched i w pc :
  nth_error (threads w) i = Some pc ->
  world_step (Sched i) w
  = mkWorld (exec (thread_step pc) (timer w))
      (set_nth i (value (thread_step pc) (timer w)) (threads w)).
Proof. intros H. unfold world_step. rewrite H. reflexivity. Qed.

(** X16. A reset that falls into the sleep of a tick is followed by that
    tick's decrement, whatever the state was: when some thread is inside
    [time.sleep(1)], a click on Reset returns with [time_left] equal to
    [pomodoro_time] and leaves the thread where it is, and the next step of
    the thread leaves [time_left] at [pomodoro_time - 1] on a timer that is
    not running. *)
Theorem reset_during_sleep (w : World) (i : nat) :
  nth_error (threads w) i = Some Sleep1 ->
  let w1 := world_step (Press ResetButton) w in
  let w2 := world_step (Sched i) w1 in
  timer w1 = exec reset_timer (timer w)
  /\ threads w1 = threads w
  /\ time_left (timer w1) = pomodoro_time (timer w)
  /\ time_left (timer w2) = pomodoro_time (timer w) - 1
  /\ timer_running (timer w2) = false
  /\ nth_error (threads w2) i = Some InnerTest.
Proof.
  intros H. cbv zeta.
  assert (E1 : world_step (Press ResetButton) w
               = mkWorld (exec reset_timer (timer w)) (threads w)).
  { rewrite world_step_press, exec_press, effects_press. cbn [button_state is_normal command].
    change (effects reset_timer (timer w)) with (@nil Effect). cbn [spawned].
    rewrite app_nil_r. reflexivity. }
  rewrite E1. cbn [timer threads].
  rewrite (world_step_sched i _ Sleep1) by exact H. cbn [timer threads].
  split; [reflexivity|]. split; [reflexivity|]. split; [reflexivity|].
  split; [reflexivity|]. split; [reflexivity|].
  apply (nth_error_set_nth _ _ _ _ H).
Qed.

(** Witness for X16: a reset in the sleep of the fourth tick. *)
Lemma reset_during_sleep_witness :
  time_left
    (timer
       (world_step (Sched 0%nat)
          (world_step (Press ResetButton) (mkWorld (exec (ticks 3) (exec start_timer init)) [Sleep1]))))
  = 1500 - 1.
Proof.
  destruct (reset_during_sleep (mkWorld (exec (ticks 3) (exec start_timer init)) [Sleep1]) 0 eq_refl)
    as (_ & _ & _ & H & _).
  exact H.
Defined.

(** Witness for the run of one countdown thread: a start, seven steps of the
    thread, a pause and three more steps. *)
Lemma single_thread_nonnegative_witness :
  0 <= time_left
         (timer
            (world_run
               [Press StartButton; Sched 0%nat; Sched 0%nat; Sched 0%nat; Sched 0%nat; Sched 0%nat; Sched 0%nat;
                Sched 0%nat; Press PauseButton; Sched 0%nat; Sched 0%nat; Sched 0%nat]
               init_world)).
Proof. apply single_thread_nonnegative. cbn. lia. Defined.

Lemma gated_controls s s' :
  timer_running s' = timer_running s -> timer_paused s' = timer_paused s ->
  pause_button (ui s') = pause_button (ui s) ->
  gated s -> gated s'.
Proof. intros E1 E2 E3 G H. rewrite E1 in H. rewrite E2, E3. apply G, H. Qed.

Lemma buttons_consistent_controls s s' :
  timer_running s' = timer_running s ->
  start_button (ui s') = start_button (ui s) ->
  pause_button (ui s') = pause_button (ui s) ->
  custom_button (ui s') = custom_button (ui s) ->
  buttons_consistent s -> buttons_consistent s'.
Proof.
  intros E1 E2 E3 E4 (B1 & B2 & B3). unfold buttons_consistent.
  rewrite E1, E2, E3, E4. repeat split; assumption.
Qed.

(** X18. Under any interleaving of clicks, typing and steps of any number
    of threads, [timer_paused] implies [timer_running], and the buttons
    follow [timer_running]: only the callbacks write the flags and the
    buttons, and they run one at a time. *)
Theorem flags_consistent_interleaved (es : list Event) :
  let s := timer (world_run es init_world) in
  (timer_paused s = true -> timer_running s = true)
  /\ buttons_consistent s.
Proof.
  cbv zeta.
  assert (I : gated (timer (world_run es init_world))
              /\ buttons_consistent (timer (world_run es init_world))).
  { induction es as [|e es IH] using rev_ind.
    - split; [exact gated_init|repeat split].
    - rewrite world_run_snoc. destruct IH as (G & B).
      set (w := world_run es init_world) in *.
      destruct e as [b|text|i].
      + rewrite world_step_press. cbn [timer]. split; [apply gated_press, G|].
        rewrite exec_press. destruct (is_normal _); [|exact B].
        apply (buttons_consistent_op (timer w) (Call b) B).
      + cbn. split; [exact G|exact B].
      + unfold world_step. destruct (nth_error (threads w) i) as [pc|]; [|split; assumption].
        cbn [timer].
        pose proof (thread_step_controls pc (timer w))
          as (C1 & C2 & _ & _ & _ & C6 & C7 & C8 & _).
        split.
        * apply (gated_controls (timer w) _ C1 C2 C7 G).
        * apply (buttons_consistent_controls (timer w) _ C1 C6 C7 C8 B). }
  destruct I as (G & B). split; [|exact B].
  intros Hp. destruct (timer_running _) eqn:Hr; [reflexivity|].
  destruct (G Hr) as (_ & Hp'). congruence.
Qed.

(** X21. Without a reset the countdown never stops by itself: while
    [timer_running] is true a thread that has not ended does not end,
    however many statements it executes, and the flag is still true
    afterwards. *)
Theorem thread_keeps_running (n : nat) (pc : Pc) (s : Timer) :
  timer_running s = true -> pc <> Exited ->
  value (thread_run n pc) s <> Exited
  /\ timer_running (exec (thread_run n pc) s) = true.
Proof.
  revert pc s. induction n as [|n IH]; intros pc s Hr Hpc; [split; assumption|].
  pose proof (thread_step_controls pc s) as (C1 & _).
  assert (Hstep : value (thread_step pc) s <> Exited).
  { unfold value. destruct pc; try congruence.
    - rewrite thread_step_outer, Hr. discriminate.
    - rewrite thread_step_inner. cbn. destruct (inner_test s); discriminate.
    - rewrite thread_step_pause. destruct (timer_paused s); discriminate.
    - rewrite thread_step_sleep1. discriminate.
    - rewrite thread_step_sleep01. discriminate.
    - rewrite thread_step_finish, Hr. discriminate. }
  unfold value, exec in *.
  destruct (thread_step pc s) as [[pc' s'] e] eqn:E. cbn [fst snd] in *.
  rewrite Hr in C1.
  destruct (IH pc' s' C1 Hstep) as (I1 & I2).
  rewrite (thread_run_step n pc s pc' s' e E).
  split; assumption.
Qed.

(** Witness for X21: a started timer after a thousand statements. *)
Lemma thread_keeps_running_witness :
  value (thread_run 1000 OuterTest) (exec start_timer init) <> Exited.
Proof.
  apply (thread_keeps_running 1000 OuterTest (exec start_timer init));
    [reflexivity|discriminate].
Defined.

(** ** Mode and count *)

Lemma mode_matches_count_finished u :
  mode_matches_count u -> mode_matches_count (exec timer_finished u).
Proof.
  intros (H0 & _ & _).
  destruct u as [pt sb lb tl run pau cnt mode w]. cbn in H0.
  unfold mode_matches_count. destruct mode.
  - rewrite timer_finished_pomodoro by reflexivity. cbn.
    destruct (Z.eqb_spec ((cnt + 1) mod 4) 0); repeat split; try lia; discriminate.
  - rewrite timer_finished_break by (cbn; congruence). cbn.
    repeat split; try lia; discriminate.
  - rewrite timer_finished_break by (cbn; congruence). cbn.
    repeat split; try lia; discriminate.
Qed.

Lemma mode_matches_count_op s o :
  mode_matches_count s -> mode_matches_count (exec (run_op o) s).
Proof.
  intros M. destruct o as [b|text|]; cbn [run_op].
  - destruct b; cbn [command].
    + rewrite exec_start_timer. destruct (timer_running s); exact M.
    + rewrite exec_pause_timer. destruct (timer_paused s); exact M.
    + rewrite exec_reset_timer. unfold mode_matches_count. cbn.
      repeat split; try lia; discriminate.
    + rewrite exec_set_custom_time.
      destruct (custom_total _) as [e|t]; [exact M|]. destruct (t >? 0); exact M.
  - exact M.
  - destruct (tick_cases s) as [(u & Hu & _ & -> & _) | (_ & Hc & Hm)].
    + apply mode_matches_count_finished.
      destruct Hu as [->| ->]; [exact M|].
      pose proof (loop_body_keeps s) as (K1 & K2 & _).
      unfold mode_matches_count. rewrite K1, K2. exact M.
    + unfold mode_matches_count. rewrite Hc, Hm. exact M.
Qed.

(** X22. In every state reached by method calls and ticks the count is not
    negative, the mode is Long Break only with a positive count that is a
    multiple of 4, and Short Break only with a positive count that is not. *)
Theorem break_kind_matches_count (s : Timer) :
  reachable s -> mode_matches_count s.
Proof.
  induction 1 as [|s o H IH].
  - unfold mode_matches_count. cbn. repeat split; try lia; discriminate.
  - apply mode_matches_count_op, IH.
Qed.

(** Witness for X22: the state after the first Pomodoro of one second. *)
Lemma break_kind_matches_count_witness :
  mode_matches_count
    (exec (run [Enter "0:0:1"; Call CustomButton; Call StartButton; Tick]) init).
Proof. apply break_kind_matches_count, run_reachable. Defined.

(** ** Window size and sound *)

(** X19. The font size chosen by [on_resize] is the largest integer of
    which ten fit in the width and five in the height of the window. *)
Theorem resize_font_size_greatest (width height size : Z) :
  size <= resize_font_size width height <-> 10 * size <= width /\ 5 * size <= height.
Proof.
  unfold resize_font_size. rewrite Z.min_glb_iff.
  split; intros (H1 & H2); split; Z.to_euclidean_division_equations; lia.
Qed.

Lemma load_first_find e l paths :
  fst (load_first e l paths) = find (fun p => e p && l p) paths.
Proof.
  induction paths as [|p r IH]; [reflexivity|]. cbn.
  destruct (e p); cbn; [|exact IH]. destruct (l p); cbn; [reflexivity|exact IH].
Qed.

Lemma load_first_lines e l paths line :
  In line (snd (load_first e l paths)) ->
  exists p, In p paths /\ e p = true /\ l p = false /\ line = failed_to_load p.
Proof.
  induction paths as [|p r IH]; cbn; [intros []|].
  destruct (e p) eqn:E.
  - destruct (l p) eqn:L; cbn; [intros []|].
    intros [<-|H].
    + exists p. repeat split; auto.
    + destruct (IH H) as (q & Hq & ?). exists q. split; [right; exact Hq|assumption].
  - intros H. destruct (IH H) as (q & Hq & ?). exists q. split; [right; exact Hq|assumption].
Qed.

(** X20. [load_system_sound] returns the first of its candidate files that
    exists and that the mixer loads, and no sound exactly when there is no
    such file; the warning that alerts are disabled is printed exactly in
    that case, and every other printed line reports a file that exists and
    failed to load. *)
Theorem load_system_sound_first (path_exists can_load : string -> bool) :
  let r := load_system_sound path_exists can_load in
  fst r = find (fun p => path_exists p && can_load p) sound_paths
  /\ (In no_sound_warning (snd r) <-> fst r = None)
  /\ (forall line, In line (snd r) ->
        line = no_sound_warning
        \/ exists p, In p sound_paths /\ path_exists p = true /\ can_load p = false
                     /\ line = failed_to_load p).
Proof.
  cbv zeta. unfold load_system_sound.
  pose proof (load_first_find path_exists can_load sound_paths) as F.
  pose proof (load_first_lines path_exists can_load sound_paths) as L.
  destruct (fst (load_first path_exists can_load sound_paths)) as [p|] eqn:E; cbn [fst snd].
  - split; [exact F|]. split.
    + split; [|discriminate]. intros H. destruct (L _ H) as (q & _ & _ & _ & Hq).
      discriminate Hq.
    + intros line H. right. apply L, H.
  - split; [exact F|]. split.
    + split; [reflexivity|]. intros _. apply in_or_app. right. left. reflexivity.
    + intros line H. apply in_app_or in H. destruct H as [H|[<-|[]]].
      * right. apply L, H.
      * left. reflexivity.
Qed.

(** X23. In every state reached by method calls and ticks the caption of
    the pause button is Unpause exactly while [timer_paused] is true, and
    Pause otherwise. *)
Theorem pause_caption_follows_flag (s : Timer) :
  reachable s ->
  pause_button_text (ui s) = (if timer_paused s then "Unpause" else "Pause")
  /\ (pause_button_text (ui s) = "Unpause" <-> timer_paused s = true).
Proof.
  intros H. destruct (reachable_steady s H) as (_ & _ & Hc).
  split; [exact Hc|]. rewrite Hc.
  destruct (timer_paused s); split; intros; congruence.
Qed.

(** Witness for X23: a started timer paused and unpaused. *)
Lemma pause_caption_follows_flag_witness :
  pause_button_text
    (ui (exec (run [Call StartButton; Call PauseButton; Call PauseButton]) init))
  = "Pause".
Proof.
  destruct (pause_caption_follows_flag
              (exec (run [Call StartButton; Call PauseButton; Call PauseButton]) init)
              (run_reachable _)) as (H & _).
  exact H.
Defined.
